(** * Training harness: queue runner, train/eval loop and entry point

    A shallow embedding of three Python sources:
    - [scripts/start_train_queue.py]  (module [Queue]),
    - [src/trainers/yolo_trainer.py]  (module [Trainer]),
    - [src/train.py]                  (module [Entry]).

    Python effects are made explicit.  A computation yields the list of
    externally visible events it produced together with either a value or
    the exception that escaped it. *)

From Stdlib Require Import ZArith QArith Ascii String.
From stdpp Require Import gmap strings list.

Close Scope Q_scope.
Open Scope Z_scope.

(** ** Python exceptions and the trace/error monad *)

Inductive exn :=
| ValueError (msg : string)
| KeyError (key : string)
| IndexError
| TypeError
| ZeroDivisionError
| AssertionError (msg : string)
| AttributeError (attr : string)
| CalledProcessError (returncode : Z) (cmd : string)
| Exception (msg : string).

Inductive result (A : Type) :=
| Ok (a : A)
| Raise (e : exn).
Arguments Ok {A} a.
Arguments Raise {A} e.

Definition is_ok {A} (r : result A) : bool :=
  match r with Ok _ => true | Raise _ => false end.

(** Events emitted so far, then the value or the escaping exception. *)
Definition M (Ev A : Type) : Type := (list Ev * result A)%type.

Section Monad.
Context {Ev : Type}.

Definition raise {A} (e : exn) : M Ev A := ([], Raise e).
Definition emit (ev : Ev) : M Ev unit := ([ev], Ok tt).
Definition lift {A} (r : result A) : M Ev A := ([], r).

#[export] Instance M_ret : MRet (M Ev) := λ A a, ([], Ok a).

#[export] Instance M_bind : MBind (M Ev) := λ A B k m,
  match m with
  | (t, Ok a) => let '(t', r) := k a in (t ++ t', r)
  | (t, Raise e) => (t, Raise e)
  end.

(** [try: m except CalledProcessError as e: h e] *)
Definition try_called_process_error {A} (m : M Ev A) (h : exn → M Ev A)
  : M Ev A :=
  match m with
  | (t, Raise (CalledProcessError c cmd)) =>
      let '(t', r) := h (CalledProcessError c cmd) in (t ++ t', r)
  | other => other
  end.
End Monad.

(** ** Python string helpers *)

(** [needle in hay] on [str]: substring test. *)
Fixpoint py_in (needle hay : string) : bool :=
  String.prefix needle hay ||
  match hay with
  | EmptyString => false
  | String _ hay' => py_in needle hay'
  end.

(** ASCII part of [str.lower()]. No character outside A-Z lowercases to an
    ASCII letter that occurs in the tokens compared below, so on those
    comparisons the byte-wise function agrees with Python's. *)
Definition lower_ascii (c : ascii) : ascii :=
  let n := nat_of_ascii c in
  if ((65 <=? n)%nat && (n <=? 90)%nat)%bool then ascii_of_nat (n + 32)%nat else c.

Fixpoint lower (s : string) : string :=
  match s with
  | EmptyString => EmptyString
  | String c s' => String (lower_ascii c) (lower s')
  end.

(** * scripts/start_train_queue.py *)

Module Queue.

(** A YAML scalar as it occurs in a task mapping: a string or null.
    Documents whose task entries are numbers, booleans or collections,
    or whose tasks are not mappings, are outside this model. *)
Inductive value :=
| VNone
| VStr (s : string).

#[export] Instance value_eq_dec : EqDecision value.
Proof. solve_decision. Defined.

Definition is_none (v : value) : bool :=
  match v with VNone => true | VStr _ => false end.

(** [str(v)] as used by f-string interpolation. *)
Definition py_str (v : value) : string :=
  match v with VNone => "None" | VStr s => s end.

(** A task is a Python dict; the queue document is [{"tasks": [...]}]. *)
Abbreviation task := (gmap string value).

Record queue := { tasks : list task }.

(** [task.get(k)] *)
Definition get (t : task) (k : string) : value := default VNone (t !! k).

(** [task[k]] *)
Definition getitem (t : task) (k : string) : result value :=
  match t !! k with
  | Some v => Ok v
  | None => Raise (KeyError k)
  end.

(** ["rm" in task["run"]] *)
Definition contains_rm (v : value) : result bool :=
  match v with
  | VStr s => Ok (py_in "rm" s)
  | VNone => Raise TypeError
  end.

(** Body of [for task in queue["tasks"]] in [load_and_validate_yaml_file]. *)
Definition validate_task (t : task) : result unit :=
  if is_none (get t "run") then
    Raise (ValueError "run key is required in the yaml task.")
  else if is_none (get t "git_checkout_target") then
    Raise (ValueError "branch or commit key is required in the yaml task.")
  else
    match getitem t "run" with
    | Raise e => Raise e
    | Ok r =>
        match contains_rm r with
        | Raise e => Raise e
        | Ok true => Raise (ValueError "rm command is not allowed in the yaml task.")
        | Ok false => Ok tt
        end
    end.

Fixpoint validate_tasks (ts : list task) : result unit :=
  match ts with
  | [] => Ok tt
  | t :: ts' =>
      match validate_task t with
      | Raise e => Raise e
      | Ok _ => validate_tasks ts'
      end
  end.

(** [load_and_validate_yaml_file]: [parsed] is what [yaml.safe_load]
    returned for the file at the moment of the call. *)
Definition load_and_validate_yaml_file (parsed : queue) : result queue :=
  match validate_tasks (tasks parsed) with
  | Raise e => Raise e
  | Ok _ => Ok parsed
  end.

(** Which of the two [subprocess.run] calls of an iteration. *)
Inductive phase := Checkout | Run.

(** The environment of one execution of the runner.  The loop body runs
    once for each value of [task_index], reads the file once and starts
    at most one process per phase, so both are indexed by [task_index]. *)
Record world := {
  disk : nat → queue;
  exit_status : nat → phase → string → Z;
}.

Inductive event :=
| Print_starting
| Print_no_more_tasks
| Print_executing (task_index : nat) (name : string)
| Print_checkout (target run : string)
| Subprocess_run (cmd : string)
| Reset_cuda
| Print_success (task_index : nat) (name : string)
| Print_failed (task_index : nat) (name : string) (e : exn)
| Print_all_done.

#[export] Instance exn_eq_dec : EqDecision exn.
Proof. solve_decision. Defined.

#[export] Instance event_eq_dec : EqDecision event.
Proof. solve_decision. Defined.

(** [subprocess.run(cmd, shell=True, text=True, check=True)] *)
Definition subprocess_run (w : world) (i : nat) (ph : phase) (cmd : string)
  : M event unit :=
  emit (Subprocess_run cmd);;
  let rc := exit_status w i ph cmd in
  if rc =? 0 then mret tt else raise (CalledProcessError rc cmd).

Definition checkout_cmd (target : string) : string :=
  "git checkout " +:+ target +:+ " && git pull".

(** How one pass through the [while] body ends when nothing escapes. *)
Inductive flow :=
| Return_
| Next (num_tasks : nat).

(** Lines 48-85: one iteration of the [while] loop at [task_index]. *)
Definition body (w : world) (task_index : nat) : M event flow :=
  queue ← lift (load_and_validate_yaml_file (disk w task_index));
  match tasks queue !! task_index with
  | None => raise IndexError
  | Some task =>
      if decide (task = ∅) then
        emit Print_no_more_tasks;; mret Return_
      else
        name ← lift (getitem task "name");
        emit (Print_executing task_index (py_str name));;
        target ← lift (getitem task "git_checkout_target");
        run ← lift (getitem task "run");
        emit (Print_checkout (py_str target) (py_str run));;
        try_called_process_error
          (subprocess_run w task_index Checkout (checkout_cmd (py_str target));;
           emit Reset_cuda;;
           subprocess_run w task_index Run (py_str run);;
           name' ← lift (getitem task "name");
           emit (Print_success task_index (py_str name')))
          (λ e,
            name' ← lift (getitem task "name");
            emit (Print_failed task_index (py_str name') e));;
        mret (Next (length (tasks queue)))
  end.

(** How the whole runner ended. [Running] is a run cut off by the fuel. *)
Inductive status :=
| All_done
| No_more_tasks
| Uncaught (e : exn)
| Running.

Record run := {
  trace : list event;
  position : nat;
  final : status;
}.

Definition prepend (t : list event) (r : run) : run :=
  {| trace := t ++ trace r; position := position r; final := final r |}.

(** [while task_index < num_tasks]; [None] stands for [float("inf")]. *)
Definition loop_test (task_index : nat) (num_tasks : option nat) : bool :=
  match num_tasks with
  | None => true
  | Some n => (task_index <? n)%nat
  end.

Fixpoint loop (fuel : nat) (w : world) (task_index : nat)
    (num_tasks : option nat) : run :=
  if loop_test task_index num_tasks then
    match fuel with
    | O => {| trace := []; position := task_index; final := Running |}
    | S fuel' =>
        match body w task_index with
        | (t, Raise e) =>
            {| trace := t; position := task_index; final := Uncaught e |}
        | (t, Ok Return_) =>
            {| trace := t; position := task_index; final := No_more_tasks |}
        | (t, Ok (Next n)) =>
            prepend t (loop fuel' w (S task_index) (Some n))
        end
    end
  else
    {| trace := [Print_all_done]; position := task_index; final := All_done |}.

Definition start_train_queue (fuel : nat) (w : world) : run :=
  prepend [Print_starting] (loop fuel w 0%nat None).

(** ** Observations on a trace *)

(** Positions whose task reached the "Executing task" banner. *)
Definition attempted (t : list event) : list nat :=
  omap (λ ev, match ev with Print_executing i _ => Some i | _ => None end) t.

(** Positions reported as failed, resp. as executed successfully. *)
Definition failures (t : list event) : list nat :=
  omap (λ ev, match ev with Print_failed i _ _ => Some i | _ => None end) t.

Definition successes (t : list event) : list nat :=
  omap (λ ev, match ev with Print_success i _ => Some i | _ => None end) t.

(** A task the validation loop lets through and the banner can name. *)
Definition well_formed (t : task) : Prop :=
  validate_task t = Ok tt ∧ is_Some (t !! "name").

(** The three ways a task fails validation. *)
Definition invalid (t : task) : Prop :=
  get t "run" = VNone ∨
  get t "git_checkout_target" = VNone ∨
  ∃ r, get t "run" = VStr r ∧ py_in "rm" r = true.

(** What an iteration prints and starts once it has selected a task with
    the given name, checkout target and command. *)
Definition outcome_events (w : world) (i : nat) (name target run : string)
  : list event :=
  let c := checkout_cmd target in
  let rc := exit_status w i Checkout c in
  let rr := exit_status w i Run run in
  [Print_executing i name; Print_checkout target run; Subprocess_run c] ++
  (if rc =? 0 then
     [Reset_cuda; Subprocess_run run] ++
     (if rr =? 0 then [Print_success i name]
      else [Print_failed i name (CalledProcessError rr run)])
   else [Print_failed i name (CalledProcessError rc c)]).

(** Would the task at position [i] of [d] fail when run in [w]? *)
Definition fails (w : world) (d : queue) (i : nat) : bool :=
  match tasks d !! i with
  | None => false
  | Some t =>
      negb (exit_status w i Checkout
              (checkout_cmd (py_str (get t "git_checkout_target"))) =? 0)
      || negb (exit_status w i Run (py_str (get t "run")) =? 0)
  end.

(** Commands handed to [subprocess.run], in order. *)
Definition commands (t : list event) : list string :=
  omap (λ ev, match ev with Subprocess_run c => Some c | _ => None end) t.

(** The "Executing task" banners and the checkout/command announcements
    printed, in order. *)
Definition banners (t : list event) : list (nat * string) :=
  omap (λ ev, match ev with Print_executing i n => Some (i, n) | _ => None end) t.

Definition plans (t : list event) : list (string * string) :=
  omap (λ ev, match ev with Print_checkout g r => Some (g, r) | _ => None end) t.

(** What the banner and the announcement of the task at position [i] of
    document [d] say. *)
Definition banner_of (d : queue) (i : nat) : nat * string :=
  (i, py_str (get (default ∅ (tasks d !! i)) "name")).

Definition plan_of (d : queue) (i : nat) : string * string :=
  (py_str (get (default ∅ (tasks d !! i)) "git_checkout_target"),
   py_str (get (default ∅ (tasks d !! i)) "run")).

(** Two task mappings that agree on the three keys the runner reads. *)
Definition same_fields (t t' : task) : Prop :=
  t !! "name" = t' !! "name" ∧
  t !! "run" = t' !! "run" ∧
  t !! "git_checkout_target" = t' !! "git_checkout_target".

(** The message of the first check of [load_and_validate_yaml_file]'s
    loop body that a task trips. *)
Definition first_complaint (t : task) : string :=
  if is_none (get t "run") then "run key is required in the yaml task."
  else if is_none (get t "git_checkout_target")
       then "branch or commit key is required in the yaml task."
       else "rm command is not allowed in the yaml task.".

End Queue.

(** * src/trainers/yolo_trainer.py *)

Module Trainer.

(** One entry of [model.named_parameters()] as [log_gradients] sees it:
    its name, [param.grad.abs().mean().item()] when [param.grad] is not
    [None], and [param.abs().mean().item()]. *)
Record param := {
  p_name : string;
  p_grad : option Q;
  p_weight : Q;
}.

(** What the numeric backend hands back for one batch: [loss.item()], the
    four counts of [utils.get_yolo_metrics(y_pred, y)], [len(y)] and the
    parameters of the model after the update of this batch.
    Python floats are modelled by exact rationals and the counts by
    Python integers. *)
Record batch := {
  b_loss : Q;
  b_num_correct : Z;
  b_num_incorrect_localization : Z;
  b_num_incorrect_other : Z;
  b_num_incorrect_background : Z;
  b_len : nat;
  b_params : list param;
}.

(** The local accumulators of [train_step] and [test_step];
    [running_loss] is [train_loss] in the former, [test_loss] in the
    latter. *)
Record locals := {
  running_loss : Q;
  num_correct : Z;
  num_incorrect_localization : Z;
  num_incorrect_other : Z;
  num_incorrect_background : Z;
  num_predictions : Z;
}.

(** [Optimizer_step] stands for the forward pass, the loss and the
    parameter update of one batch; [Log_gradients] for one line printed
    by [log_gradients]. *)
Inductive event :=
| Model_train
| Model_eval
| Optimizer_step
| Log_gradients (name : string) (avg_grad avg_weight avg_grad_weight : Q)
| Log_metrics (metrics : list (string * Q)) (step : Q)
| Save_model (epoch : Z)
| Lr_scheduler_step.

(** [a / b] on Python numbers *)
Definition true_div (a b : Q) : result Q :=
  if Qeq_bool b 0 then Raise ZeroDivisionError else Ok (a / b)%Q.

(** [log_gradients(model)]: one line for every parameter that has a
    gradient; the quotient is a division of two Python floats. *)
Fixpoint log_gradients (ps : list param) : M event unit :=
  match ps with
  | [] => mret tt
  | p :: ps' =>
      match p_grad p with
      | None => log_gradients ps'
      | Some avg_grad =>
          let avg_weight := p_weight p in
          avg_grad_weight ← lift (true_div avg_grad avg_weight);
          emit (Log_gradients (p_name p) avg_grad avg_weight avg_grad_weight);;
          log_gradients ps'
      end
  end.

(** [a % b] on Python integers *)
Definition py_mod (a b : Z) : result Z :=
  if b =? 0 then Raise ZeroDivisionError else Ok (a mod b).

Definition init : locals :=
  {| running_loss := 0; num_correct := 0; num_incorrect_localization := 0;
     num_incorrect_other := 0; num_incorrect_background := 0;
     num_predictions := 0 |}.

(** The [+=] lines shared by both passes. *)
Definition accumulate (l : locals) (b : batch) : locals :=
  {| running_loss := (running_loss l + b_loss b)%Q;
     num_correct := num_correct l + b_num_correct b;
     num_incorrect_localization :=
       num_incorrect_localization l + b_num_incorrect_localization b;
     num_incorrect_other := num_incorrect_other l + b_num_incorrect_other b;
     num_incorrect_background :=
       num_incorrect_background l + b_num_incorrect_background b;
     num_predictions := num_predictions l + Z.of_nat (b_len b) |}.

(** Lines 67-85 of [train_step]: log one metric point, then zero the
    counters.  [b] is the batch just processed, [batch] its index and
    [n] is [len(dataloader)]. *)
Definition flush (l : locals) (b : batch) (epoch : Z) (batch n : nat)
  : M event locals :=
  let total := inject_Z (num_predictions l) in
  accuracy ← lift (true_div (inject_Z (num_correct l)) total);
  localization ← lift (true_div (inject_Z (num_incorrect_localization l)) total);
  other ← lift (true_div (inject_Z (num_incorrect_other l)) total);
  background ← lift (true_div (inject_Z (num_incorrect_background l)) total);
  frac ← lift (true_div (inject_Z (Z.of_nat batch)) (inject_Z (Z.of_nat n)));
  emit (Log_metrics
          [("train/loss", b_loss b);
           ("train/accuracy", accuracy);
           ("train/percent_incorrect_localization", localization);
           ("train/percent_incorrect_other", other);
           ("train/percent_incorrect_background", background)]
          (inject_Z epoch + frac)%Q);;
  mret {| running_loss := running_loss l;
          num_correct := 0; num_incorrect_localization := 0;
          num_incorrect_other := 0; num_incorrect_background := 0;
          num_predictions := 0 |}.

(** [batch != 0 and batch % log_interval == 0] *)
Definition flush_due (batch : nat) (log_interval : Z) : result bool :=
  if (batch =? 0)%nat then Ok false
  else match py_mod (Z.of_nat batch) log_interval with
       | Raise e => Raise e
       | Ok r => Ok (r =? 0)
       end.

(** The [for batch, (X, y) in enumerate(dataloader)] loop of [train_step],
    from index [batch] on. *)
Fixpoint train_batches (bs : list batch) (batch n : nat)
    (log_interval epoch : Z) (l : locals) : M event locals :=
  match bs with
  | [] => mret l
  | b :: bs' =>
      emit Optimizer_step;;
      let l1 := accumulate l b in
      log_gradients (b_params b);;
      due ← lift (flush_due batch log_interval);
      l2 ← (if due : bool then flush l1 b epoch batch n else mret l1);
      train_batches bs' (S batch) n log_interval epoch l2
  end.

Definition train_step (dataloader : list batch) (log_interval epoch : Z)
  : M event unit :=
  emit Model_train;;
  train_batches dataloader 0 (length dataloader) log_interval epoch init;;
  mret tt.

(** Lines 126-137 of [test_step]. *)
Definition report (l : locals) (n : nat) (epoch : Z) : M event unit :=
  let total := inject_Z (num_predictions l) in
  loss ← lift (true_div (running_loss l) (inject_Z (Z.of_nat n)));
  accuracy ← lift (true_div (inject_Z (num_correct l)) total);
  localization ← lift (true_div (inject_Z (num_incorrect_localization l)) total);
  other ← lift (true_div (inject_Z (num_incorrect_other l)) total);
  background ← lift (true_div (inject_Z (num_incorrect_background l)) total);
  emit (Log_metrics
          [("val/loss", loss);
           ("val/accuracy", accuracy);
           ("val/percent_incorrect_localization", localization);
           ("val/percent_incorrect_other", other);
           ("val/percent_incorrect_background", background)]
          (inject_Z epoch)).

Definition test_step (dataloader : list batch) (epoch : Z) : M event unit :=
  emit Model_eval;;
  report (foldl accumulate init dataloader) (length dataloader) epoch.

(** The collaborators of [train]: the batches each pass of an epoch
    observes (they depend on the parameters at that time) and the
    learning rate of the optimizer after a number of scheduler steps. *)
Record backend := {
  train_dataloader : Z → list batch;
  val_dataloader : Z → list batch;
  lr : nat → Q;
}.

(** [epoch % checkpoint_interval == 0 or epoch == epoch_end - 1] *)
Definition checkpoint_due (epoch checkpoint_interval epoch_end : Z)
  : result bool :=
  match py_mod epoch checkpoint_interval with
  | Raise e => Raise e
  | Ok r => Ok ((r =? 0) || (epoch =? epoch_end - 1))
  end.

(** The [for epoch in range(epoch_start, epoch_end)] loop of [train]:
    [todo] epochs remain, [steps] scheduler steps were taken so far. *)
Fixpoint epochs (bk : backend) (todo : nat) (epoch : Z) (steps : nat)
    (epoch_end checkpoint_interval log_interval : Z) : M event unit :=
  match todo with
  | O => mret tt
  | S todo' =>
      train_step (train_dataloader bk epoch) log_interval epoch;;
      test_step (val_dataloader bk epoch) (epoch + 1);;
      emit (Log_metrics [("learning_rate", lr bk steps)] (inject_Z (epoch + 1)));;
      due ← lift (checkpoint_due epoch checkpoint_interval epoch_end);
      (if due : bool then emit (Save_model epoch) else mret tt);;
      emit Lr_scheduler_step;;
      epochs bk todo' (epoch + 1) (S steps)
        epoch_end checkpoint_interval log_interval
  end.

Definition train (bk : backend)
    (epoch_start epoch_end checkpoint_interval log_interval : Z)
  : M event unit :=
  emit (Log_metrics [("learning_rate", lr bk 0)] (inject_Z epoch_start));;
  epochs bk (Z.to_nat (epoch_end - epoch_start)) epoch_start 0
    epoch_end checkpoint_interval log_interval.

(** ** Observations on a trace *)

Definition has_key (k : string) (metrics : list (string * Q)) : bool :=
  existsb (λ kv, String.eqb kv.1 k) metrics.

Fixpoint value_of (k : string) (metrics : list (string * Q)) : option Q :=
  match metrics with
  | [] => None
  | (k', v) :: metrics' => if String.eqb k' k then Some v else value_of k metrics'
  end.

(** Steps at which metric [k] was logged, in order. *)
Fixpoint points (k : string) (t : list event) : list Q :=
  match t with
  | [] => []
  | Log_metrics m s :: t' =>
      if has_key k m then s :: points k t' else points k t'
  | _ :: t' => points k t'
  end.

(** Values logged for metric [k], in order. *)
Fixpoint logged (k : string) (t : list event) : list Q :=
  match t with
  | [] => []
  | Log_metrics m _ :: t' =>
      match value_of k m with
      | Some v => v :: logged k t'
      | None => logged k t'
      end
  | _ :: t' => logged k t'
  end.

(** Calls of [model.train()], one at the start of every training pass. *)
Fixpoint training_passes (t : list event) : nat :=
  match t with
  | [] => 0
  | Model_train :: t' => S (training_passes t')
  | _ :: t' => training_passes t'
  end.

(** Calls of [model.eval()], one at the start of every evaluation pass. *)
Fixpoint evaluation_passes (t : list event) : nat :=
  match t with
  | [] => 0
  | Model_eval :: t' => S (evaluation_passes t')
  | _ :: t' => evaluation_passes t'
  end.

Fixpoint checkpoints (t : list event) : list Z :=
  match t with
  | [] => []
  | Save_model e :: t' => e :: checkpoints t'
  | _ :: t' => checkpoints t'
  end.

Definition flushed (l : locals) : locals :=
  {| running_loss := running_loss l;
     num_correct := 0; num_incorrect_localization := 0;
     num_incorrect_other := 0; num_incorrect_background := 0;
     num_predictions := 0 |}.

Definition train_point (l : locals) (b : batch) : list (string * Q) :=
  let total := inject_Z (num_predictions l) in
  [("train/loss", b_loss b);
   ("train/accuracy", (inject_Z (num_correct l) / total)%Q);
   ("train/percent_incorrect_localization",
     (inject_Z (num_incorrect_localization l) / total)%Q);
   ("train/percent_incorrect_other",
     (inject_Z (num_incorrect_other l) / total)%Q);
   ("train/percent_incorrect_background",
     (inject_Z (num_incorrect_background l) / total)%Q)].

(** A stretch of trace that holds none of the events counted by [train]'s
    bookkeeping except, possibly, pass markers. *)
Definition plain (t : list event) : Prop :=
  points "learning_rate" t = [] ∧ checkpoints t = [].

(** No parameter that has a gradient has a zero mean weight. *)
Definition gradients_ok (ps : list param) : Prop :=
  Forall (λ p, p_grad p = None ∨ Qeq_bool (p_weight p) 0 = false) ps.

(** A training batch that carries samples and whose diagnostic printout
    does not divide by zero. *)
Definition trainable (b : batch) : Prop :=
  (0 < b_len b)%nat ∧ gradients_ok (b_params b).

(** A sufficient condition for a run without division by zero: every
    training batch is [trainable], every validation batch carries a
    sample, the validation loader is not empty and both intervals are
    non-zero. *)
Definition healthy (bk : backend) (log_interval checkpoint_interval : Z)
  : Prop :=
  log_interval ≠ 0 ∧ checkpoint_interval ≠ 0 ∧
  ∀ e, Forall trainable (train_dataloader bk e) ∧
       val_dataloader bk e ≠ [] ∧
       Forall (λ b, (0 < b_len b)%nat) (val_dataloader bk e).

(** Every pass of the range returns, and the checkpoint test can be
    evaluated if it is reached at all. *)
Definition completes (bk : backend)
    (epoch_start epoch_end checkpoint_interval log_interval : Z) : Prop :=
  (epoch_start < epoch_end → checkpoint_interval ≠ 0) ∧
  ∀ e, epoch_start ≤ e < epoch_end →
       is_ok (train_step (train_dataloader bk e) log_interval e).2 = true ∧
       is_ok (test_step (val_dataloader bk e) (e + 1)).2 = true.

(** Calls of [lr_scheduler.step()] and of [run_manager.log_metrics]. *)
Fixpoint scheduler_steps (t : list event) : nat :=
  match t with
  | [] => 0
  | Lr_scheduler_step :: t' => S (scheduler_steps t')
  | _ :: t' => scheduler_steps t'
  end.

Fixpoint log_calls (t : list event) : nat :=
  match t with
  | [] => 0
  | Log_metrics _ _ :: t' => S (log_calls t')
  | _ :: t' => log_calls t'
  end.

(** Batches trained on: one forward/backward/update each. *)
Fixpoint optimizer_steps (t : list event) : nat :=
  match t with
  | [] => 0
  | Optimizer_step :: t' => S (optimizer_steps t')
  | _ :: t' => optimizer_steps t'
  end.

(** Is a metric point due after the batch with index [i]? *)
Definition flushes_at (log_interval : Z) (i : nat) : bool :=
  negb (i =? 0)%nat && (Z.of_nat i mod log_interval =? 0).

(** [epoch + batch / len(dataloader)] *)
Definition flush_step (epoch : Z) (n i : nat) : Q :=
  (inject_Z epoch + inject_Z (Z.of_nat i) / inject_Z (Z.of_nat n))%Q.

(** Sums over a loader, in the order the passes add them up. *)
Definition total (f : batch → Z) (dl : list batch) : Z :=
  foldl (λ acc b, acc + f b) 0 dl.

Definition total_loss (dl : list batch) : Q :=
  foldl (λ acc b, (acc + b_loss b)%Q) 0%Q dl.

(** The point an evaluation pass over [dl] logs. *)
Definition val_point (dl : list batch) : list (string * Q) :=
  let samples := inject_Z (total (λ b, Z.of_nat (b_len b)) dl) in
  [("val/loss", (total_loss dl / inject_Z (Z.of_nat (length dl)))%Q);
   ("val/accuracy", (inject_Z (total b_num_correct dl) / samples)%Q);
   ("val/percent_incorrect_localization",
     (inject_Z (total b_num_incorrect_localization dl) / samples)%Q);
   ("val/percent_incorrect_other",
     (inject_Z (total b_num_incorrect_other dl) / samples)%Q);
   ("val/percent_incorrect_background",
     (inject_Z (total b_num_incorrect_background dl) / samples)%Q)].

(** A stretch of trace without learning-rate points, checkpoints or
    scheduler steps. *)
Definition quiet (t : list event) : Prop :=
  logged "learning_rate" t = [] ∧ points "learning_rate" t = [] ∧
  checkpoints t = [] ∧ scheduler_steps t = 0%nat.

(** A stretch of trace that, in addition, starts no pass. *)
Definition inert (t : list event) : Prop :=
  training_passes t = 0%nat ∧ evaluation_passes t = 0%nat ∧ quiet t.

End Trainer.

(** * src/train.py *)

Module Entry.

(** The [argparse] namespace built in the [__main__] block.  There is no
    [--lr] option, so the namespace has no [lr] attribute. *)
Record args := {
  num_epochs : Z;
  batch_size : Z;
  lr_scheduler : string;
  run_id : string;
  log_interval : Z;
  checkpoint_interval : Z;
  continue_from_checkpoint_run_id : option string;
  continue_from_checkpoint_path : option string;
  device : string;
}.

(** What the script needs from outside: [torch.cuda.is_available()] and
    [run_manager.load_checkpoint], whose source is not part of the
    repository slice; it returns the epoch to start from or raises. *)
Record env := {
  cuda_is_available : bool;
  load_checkpoint : string → option string → result Z;
}.

Inductive event :=
| Input_prompt (run_id : string)
| Print_starting (run_id : string)
| Create_dataloaders (batch_size num_workers : Z)
| Build_model (device : string)
| Run_manager (run_id : string)
| Load_checkpoint (run_id : string) (checkpoint_path : option string)
| Get_custom_lr_scheduler
| Log_data
| Log_files
| Engine_train (epoch_start epoch_end checkpoint_interval log_interval : Z)
| End_run.

(** Lines 65-70: where the run starts. *)
Definition resolve_epoch_start (e : env) (a : args) : M event Z :=
  match continue_from_checkpoint_run_id a, continue_from_checkpoint_path a with
  | Some rid, None =>
      emit (Load_checkpoint rid (continue_from_checkpoint_path a));;
      lift (load_checkpoint e rid (continue_from_checkpoint_path a))
  | _, _ => mret 0
  end.

(** [train(args)] *)
Definition train (e : env) (a : args) : M event unit :=
  (if bool_decide (device a ∈ ["cpu"; "cuda"]) then mret tt
   else raise (AssertionError "Invalid device"));;
  (if bool_decide (device a = "cuda") && negb (cuda_is_available e)
   then raise (Exception "CUDA is not available on this device")
   else mret tt);;
  let num_workers := 8 in
  emit (Create_dataloaders (batch_size a) num_workers);;
  emit (Build_model (device a));;
  emit (Run_manager (run_id a));;
  epoch_start ← resolve_epoch_start e a;
  (if bool_decide (lr_scheduler a = "custom") then emit Get_custom_lr_scheduler
   else raise (AttributeError "lr"));;
  emit Log_data;;
  emit Log_files;;
  emit (Engine_train epoch_start (epoch_start + num_epochs a)
          (checkpoint_interval a) (log_interval a));;
  emit End_run.

(** The [__main__] block after argument parsing; [inp] is what the user
    typed at the prompt (an interrupt at the prompt is not modelled). *)
Definition main (e : env) (a : args) (inp : string) : M event unit :=
  emit (Input_prompt (run_id a));;
  if bool_decide (lower inp ≠ "yes") then
    raise (Exception "Type yes on input...")
  else
    emit (Print_starting (run_id a));;
    train e a.

(** Events that only [train] produces. *)
Definition side_effect (ev : event) : bool :=
  match ev with
  | Input_prompt _ | Print_starting _ => false
  | _ => true
  end.

Definition loads (t : list event) : list (string * option string) :=
  omap (λ ev, match ev with Load_checkpoint r p => Some (r, p) | _ => None end) t.

Definition engine_starts (t : list event) : list Z :=
  omap (λ ev, match ev with Engine_train s _ _ _ => Some s | _ => None end) t.

(** The answers [inp.lower() != "yes"] lets through. *)
Definition yes_spellings : list string :=
  ["yes"; "yeS"; "yEs"; "yES"; "Yes"; "YeS"; "YEs"; "YES"].

Definition engine_calls (t : list event) : list (Z * Z) :=
  omap (λ ev, match ev with Engine_train s e _ _ => Some (s, e) | _ => None end) t.

End Entry.

(** * Concrete inputs used below *)

Module Examples.
Import Queue.

Definition mk_task (name run target : string) : gmap string value :=
  {[ "name" := VStr name; "run" := VStr run;
     "git_checkout_target" := VStr target ]}.

Definition three_tasks : queue :=
  {| tasks := [mk_task "baseline" "python train.py --run_id baseline" "main";
               mk_task "wide" "python train.py --run_id wide" "wide-net";
               mk_task "deep" "python train.py --run_id deep" "main"] |}.

Definition one_task : queue :=
  {| tasks := [mk_task "baseline" "python train.py --run_id baseline" "main"] |}.

Definition four_tasks : queue :=
  {| tasks := tasks three_tasks ++
              [mk_task "late" "python train.py --run_id late" "main"] |}.

(** The letters r, m only occur inside the word "normal". *)
Definition harmless_rm : queue :=
  {| tasks := [mk_task "baseline" "python train.py --run_id baseline" "main";
               mk_task "normal" "python train.py --run_id normal_run" "main"] |}.

Definition all_succeed : nat → phase → string → Z := λ _ _ _, 0.

(** Only the checkout of the task at position 1 exits non-zero. *)
Definition second_checkout_fails : nat → phase → string → Z :=
  λ i ph _,
    match i, ph with
    | 1%nat, Checkout => 1
    | _, _ => 0
    end.

Definition static (d : queue) (st : nat → phase → string → Z) : world :=
  {| disk := λ _, d; exit_status := st |}.

(** The file holds [d0] at the first reload and [d1] from then on. *)
Definition edited (d0 d1 : queue) (st : nat → phase → string → Z) : world :=
  {| disk := λ i, match i with O => d0 | S _ => d1 end; exit_status := st |}.

(** A weight with a gradient, a frozen weight and a bias that is still
    all zeros. *)
Definition conv_weight : Trainer.param :=
  {| Trainer.p_name := "conv1.weight"; Trainer.p_grad := Some (1 # 100)%Q;
     Trainer.p_weight := (1 # 2)%Q |}.

Definition frozen_weight : Trainer.param :=
  {| Trainer.p_name := "backbone.weight"; Trainer.p_grad := None;
     Trainer.p_weight := 0%Q |}.

Definition zero_bias : Trainer.param :=
  {| Trainer.p_name := "fc.bias"; Trainer.p_grad := Some (1 # 100)%Q;
     Trainer.p_weight := 0%Q |}.

(** One sample, classified correctly, with the given loss. *)
Definition one_sample (l : Q) : Trainer.batch :=
  {| Trainer.b_loss := l; Trainer.b_num_correct := 1;
     Trainer.b_num_incorrect_localization := 0;
     Trainer.b_num_incorrect_other := 0;
     Trainer.b_num_incorrect_background := 0;
     Trainer.b_len := 1;
     Trainer.b_params := [conv_weight; frozen_weight] |}.

(** A batch without samples. *)
Definition no_sample : Trainer.batch :=
  {| Trainer.b_loss := 0; Trainer.b_num_correct := 0;
     Trainer.b_num_incorrect_localization := 0;
     Trainer.b_num_incorrect_other := 0;
     Trainer.b_num_incorrect_background := 0;
     Trainer.b_len := 0;
     Trainer.b_params := [conv_weight; frozen_weight] |}.

(** One sample, trained on a model whose bias is all zeros. *)
Definition zero_bias_batch : Trainer.batch :=
  {| Trainer.b_loss := 1; Trainer.b_num_correct := 1;
     Trainer.b_num_incorrect_localization := 0;
     Trainer.b_num_incorrect_other := 0;
     Trainer.b_num_incorrect_background := 0;
     Trainer.b_len := 1;
     Trainer.b_params := [conv_weight; zero_bias] |}.

Definition two_batches : list Trainer.batch := [one_sample 1; one_sample 3].

Definition steady : Trainer.backend :=
  {| Trainer.train_dataloader := λ _, two_batches;
     Trainer.val_dataloader := λ _, [one_sample 2];
     Trainer.lr := λ _, (1 # 1000)%Q |}.

(** Resuming run "r1" from an explicit checkpoint file saved at epoch 5;
    the loader would answer with epoch 6. *)
Definition resume_args : Entry.args :=
  {| Entry.num_epochs := 10; Entry.batch_size := 32;
     Entry.lr_scheduler := "custom"; Entry.run_id := "r2";
     Entry.log_interval := 10; Entry.checkpoint_interval := 1;
     Entry.continue_from_checkpoint_run_id := Some "r1";
     Entry.continue_from_checkpoint_path := Some "checkpoints/r1/epoch_5.pth";
     Entry.device := "cpu" |}.

Definition saved_epoch_5 : Entry.env :=
  {| Entry.cuda_is_available := false;
     Entry.load_checkpoint := λ _ _, Ok 6 |}.

(** A validated task that carries no [name]. *)
Definition unnamed_task : gmap string Queue.value :=
  {[ "run" := VStr "python train.py --run_id anon";
     "git_checkout_target" := VStr "main" ]}.

(** The same three tasks as [three_tasks], each with an [index] entry. *)
Definition three_tasks_indexed : queue :=
  {| tasks := (λ t, <["index" := VStr "7.5"]> t) <$> tasks three_tasks |}.

(** Every command exits with status 2. *)
Definition all_fail : nat → phase → string → Z := λ _ _ _, 2.

(** No validation data at all. *)
Definition no_validation : Trainer.backend :=
  {| Trainer.train_dataloader := λ _, two_batches;
     Trainer.val_dataloader := λ _, [];
     Trainer.lr := λ _, (1 # 1000)%Q |}.

(** The learning rate halves with every scheduler step. *)
Definition halving : Trainer.backend :=
  {| Trainer.train_dataloader := λ _, two_batches;
     Trainer.val_dataloader := λ _, [one_sample 2];
     Trainer.lr := λ n, (1 # Pos.of_nat (2 ^ n))%Q |}.

(** Resuming run "r1" by its id alone. *)
Definition resume_by_id : Entry.args :=
  {| Entry.num_epochs := 10; Entry.batch_size := 32;
     Entry.lr_scheduler := "custom"; Entry.run_id := "r2";
     Entry.log_interval := 10; Entry.checkpoint_interval := 1;
     Entry.continue_from_checkpoint_run_id := Some "r1";
     Entry.continue_from_checkpoint_path := None;
     Entry.device := "cpu" |}.

(** A fresh run with a fixed-rate scheduler on an accelerator. *)
Definition fixed_rate_args : Entry.args :=
  {| Entry.num_epochs := 10; Entry.batch_size := 32;
     Entry.lr_scheduler := "fixed"; Entry.run_id := "r3";
     Entry.log_interval := 10; Entry.checkpoint_interval := 1;
     Entry.continue_from_checkpoint_run_id := None;
     Entry.continue_from_checkpoint_path := None;
     Entry.device := "cpu" |}.

Definition gpu_args : Entry.args :=
  {| Entry.num_epochs := 10; Entry.batch_size := 32;
     Entry.lr_scheduler := "custom"; Entry.run_id := "r4";
     Entry.log_interval := 10; Entry.checkpoint_interval := 1;
     Entry.continue_from_checkpoint_run_id := None;
     Entry.continue_from_checkpoint_path := None;
     Entry.device := "cuda" |}.

(** No checkpoint can be found. *)
Definition nothing_saved : Entry.env :=
  {| Entry.cuda_is_available := false;
     Entry.load_checkpoint := λ _ _, Raise (Exception "checkpoint not found") |}.

End Examples.

(** * Properties of the queue runner *)

Section QueueFacts.
Import Queue.
Local Open Scope nat_scope.

(** ** Substring test *)

Lemma append_cons (c : ascii) (s t : string) :
  String c s +:+ t = String c (s +:+ t).
Proof. reflexivity. Qed.

Lemma append_nil (t : string) : "" +:+ t = t.
Proof. reflexivity. Qed.

Lemma prefix_split (n h : string) :
  String.prefix n h = true ↔ ∃ post, h = n +:+ post.
Proof.
  revert h; induction n as [|c n IH]; intros h; simpl.
  - destruct h; split; eauto.
  - setoid_rewrite append_cons.
    destruct h as [|c' h]; simpl; [split; [done | by intros [? ?]]|].
    destruct (Ascii.ascii_dec c c') as [->|Hne].
    + rewrite IH. split.
      * intros [post ->]. by exists post.
      * intros [post [= ->]]. by exists post.
    + split; [done | intros [post [= ? ?]]; congruence].
Qed.

(** [py_in] is Python's substring test: the needle occurs somewhere. *)
Lemma py_in_spec (n h : string) :
  py_in n h = true ↔ ∃ pre post, h = pre +:+ n +:+ post.
Proof.
  induction h as [|c h IH]; cbn [py_in]; rewrite orb_true_iff.
  - split.
    + intros [Hp|?]; [|done]. apply prefix_split in Hp as [post ->].
      by exists "", post.
    + intros ([|? ?] & post & Hp); [|by rewrite append_cons in Hp].
      left. apply prefix_split. by exists post.
  - rewrite IH. split.
    + intros [Hp|(pre & post & ->)].
      * apply prefix_split in Hp as [post ->]. by exists "", post.
      * by exists (String c pre), post.
    + intros ([|c' pre] & post & Hp).
      * left. apply prefix_split. by exists post.
      * right. exists pre, post. rewrite append_cons in Hp. congruence.
Qed.

(** ** Validation *)

Lemma validate_task_cases (t : task) :
  validate_task t = Ok tt ∨ ∃ msg, validate_task t = Raise (ValueError msg).
Proof.
  unfold validate_task, getitem, get.
  destruct (t !! "run") as [[|r]|]; simpl; eauto.
  destruct (is_none _); eauto.
  destruct (py_in "rm" r); eauto.
Qed.

Lemma validate_task_invalid (t : task) :
  invalid t ↔ ∃ msg, validate_task t = Raise (ValueError msg).
Proof.
  unfold invalid, validate_task, getitem, get.
  destruct (t !! "run") as [[|r]|]; simpl.
  - split; eauto.
  - destruct (default VNone (t !! "git_checkout_target")) as [|g]; simpl.
    + split; eauto.
    + destruct (py_in "rm" r) eqn:Hrm; split; eauto.
      * intros [?|[?|(r' & ? & ?)]]; try done. simplify_eq. congruence.
      * intros [? ?]; done.
  - split; eauto.
Qed.

Lemma validate_tasks_cases (ts : list task) :
  validate_tasks ts = Ok tt ∨ ∃ msg, validate_tasks ts = Raise (ValueError msg).
Proof.
  induction ts as [|t ts IH]; simpl; [by left|].
  destruct (validate_task_cases t) as [->|[msg ->]]; eauto.
Qed.

Lemma validate_tasks_ok (ts : list task) :
  validate_tasks ts = Ok tt ↔ ∀ t, t ∈ ts → validate_task t = Ok tt.
Proof.
  induction ts as [|t ts IH]; simpl.
  - split; [intros _ t Ht; inversion Ht | done].
  - destruct (validate_task t) as [[]|e] eqn:Ht.
    + rewrite IH. split.
      * intros H t' [->|?]%elem_of_cons; auto.
      * intros H t' ?. apply H. by right.
    + split; [done|]. intros H. specialize (H t (list_elem_of_here _ _)).
      congruence.
Qed.

Lemma validate_tasks_invalid (ts : list task) (t : task) :
  t ∈ ts → invalid t → ∃ msg, validate_tasks ts = Raise (ValueError msg).
Proof.
  intros Hin Hbad.
  destruct (validate_tasks_cases ts) as [Hok|?]; [|done].
  rewrite validate_tasks_ok in Hok. specialize (Hok t Hin).
  apply validate_task_invalid in Hbad as [msg Hmsg]. congruence.
Qed.

Lemma load_invalid (q : queue) (t : task) :
  t ∈ tasks q → invalid t →
  ∃ msg, load_and_validate_yaml_file q = Raise (ValueError msg).
Proof.
  intros Hin Hbad. unfold load_and_validate_yaml_file.
  destruct (validate_tasks_invalid _ _ Hin Hbad) as [msg ->]. eauto.
Qed.

Lemma load_ok (q : queue) :
  (∀ t, t ∈ tasks q → validate_task t = Ok tt) →
  load_and_validate_yaml_file q = Ok q.
Proof.
  intros H. unfold load_and_validate_yaml_file.
  by apply validate_tasks_ok in H as ->.
Qed.

(** ** One iteration *)

Lemma body_load_error (w : world) (i : nat) (e : exn) :
  load_and_validate_yaml_file (disk w i) = Raise e →
  body w i = ([], Raise e).
Proof. intros H. unfold body. by rewrite H. Qed.

Lemma body_index_error (w : world) (i : nat) :
  load_and_validate_yaml_file (disk w i) = Ok (disk w i) →
  (length (tasks (disk w i)) ≤ i)%nat →
  body w i = ([], Raise IndexError).
Proof.
  intros H Hlen. unfold body. rewrite H. simpl.
  by rewrite (lookup_ge_None_2 _ _ Hlen).
Qed.

Lemma well_formed_fields (t : task) :
  well_formed t →
  ∃ name r g, t !! "name" = Some name ∧ t !! "run" = Some (VStr r) ∧
              t !! "git_checkout_target" = Some (VStr g) ∧
              py_in "rm" r = false.
Proof.
  intros [Hv [name Hn]]. revert Hv. unfold validate_task, getitem, get.
  destruct (t !! "run") as [[|r]|]; simpl; try done.
  destruct (t !! "git_checkout_target") as [[|g]|]; simpl; try done.
  destruct (py_in "rm" r) eqn:Hrm; try done. intros _. by exists name, r, g.
Qed.

(** An iteration that selects a well-formed task never lets an exception
    escape and hands the fresh document length to the loop test. *)
Lemma body_runs (w : world) (i : nat) (t : task) :
  load_and_validate_yaml_file (disk w i) = Ok (disk w i) →
  tasks (disk w i) !! i = Some t →
  well_formed t →
  body w i =
    (outcome_events w i (py_str (get t "name"))
       (py_str (get t "git_checkout_target")) (py_str (get t "run")),
     Ok (Next (length (tasks (disk w i))))).
Proof.
  intros Hload Hsel Hwf.
  destruct (well_formed_fields t Hwf) as (name & r & g & Hn & Hr & Hg & _).
  unfold body. rewrite Hload. simpl. rewrite Hsel.
  destruct (decide (t = ∅)) as [->|_]; [by rewrite lookup_empty in Hn|].
  unfold outcome_events, subprocess_run, getitem, get.
  rewrite Hn, Hr, Hg. simpl.
  destruct (exit_status w i Checkout _ =? 0)%Z; simpl; [|done].
  destruct (exit_status w i Run _ =? 0)%Z; simpl; done.
Qed.

Lemma attempted_outcome w i name target run :
  attempted (outcome_events w i name target run) = [i].
Proof.
  unfold outcome_events.
  destruct (exit_status w i Checkout _ =? 0)%Z; [|done].
  by destruct (exit_status w i Run _ =? 0)%Z.
Qed.

Lemma failures_outcome w i name target run :
  failures (outcome_events w i name target run) =
    if (negb (exit_status w i Checkout (checkout_cmd target) =? 0)
        || negb (exit_status w i Run run =? 0))%Z
    then [i] else [].
Proof.
  unfold outcome_events.
  destruct (exit_status w i Checkout _ =? 0)%Z; [|done].
  by destruct (exit_status w i Run _ =? 0)%Z.
Qed.

Lemma successes_outcome w i name target run :
  successes (outcome_events w i name target run) =
    if (negb (exit_status w i Checkout (checkout_cmd target) =? 0)
        || negb (exit_status w i Run run =? 0))%Z
    then [] else [i].
Proof.
  unfold outcome_events.
  destruct (exit_status w i Checkout _ =? 0)%Z; [|done].
  by destruct (exit_status w i Run _ =? 0)%Z.
Qed.

(** ** The loop *)

Lemma prepend_prepend (t t' : list event) (r : run) :
  prepend t (prepend t' r) = prepend (t ++ t') r.
Proof. unfold prepend. simpl. by rewrite app_assoc. Qed.

Lemma loop_exit (fuel : nat) (w : world) (i n : nat) :
  (n ≤ i)%nat →
  loop fuel w i (Some n) =
    {| trace := [Print_all_done]; position := i; final := All_done |}.
Proof.
  intros Hle. assert (loop_test i (Some n) = false) as Ht.
  { simpl. by apply Nat.ltb_ge. }
  destruct fuel; simpl in *; by rewrite Ht.
Qed.

Lemma loop_step (fuel : nat) (w : world) (i : nat) (num : option nat) :
  loop_test i num = true →
  loop (S fuel) w i num =
    match body w i with
    | (t, Raise e) => {| trace := t; position := i; final := Uncaught e |}
    | (t, Ok Return_) => {| trace := t; position := i; final := No_more_tasks |}
    | (t, Ok (Next n)) => prepend t (loop fuel w (S i) (Some n))
    end.
Proof. intros Ht. simpl. by rewrite Ht. Qed.

Lemma load_well_formed (d : queue) :
  Forall well_formed (tasks d) → load_and_validate_yaml_file d = Ok d.
Proof.
  intros Hwf. apply load_ok. intros t Ht.
  rewrite Forall_forall in Hwf. by destruct (Hwf t Ht).
Qed.

(** One turn of the loop on a well-formed document: whatever the two
    processes return, control reaches the loop test again at [S i]. *)
Lemma loop_one (w : world) (d : queue) (i fuel : nat) (num : option nat) :
  Forall well_formed (tasks d) →
  disk w i = d →
  i < length (tasks d) →
  loop_test i num = true →
  ∃ t, loop (S fuel) w i num =
         prepend t (loop fuel w (S i) (Some (length (tasks d)))) ∧
       attempted t = [i] ∧
       failures t = (if fails w d i then [i] else []) ∧
       successes t = (if fails w d i then [] else [i]).
Proof.
  intros Hwf Hd Hlt Htest.
  destruct (lookup_lt_is_Some_2 _ _ Hlt) as [t Ht].
  assert (well_formed t) as Hwt by (by eapply Forall_lookup_1).
  rewrite (loop_step _ _ _ _ Htest).
  rewrite (body_runs w i t); rewrite ?Hd; auto using load_well_formed.
  eexists. split; [reflexivity|].
  rewrite attempted_outcome, failures_outcome, successes_outcome.
  unfold fails. by rewrite Ht.
Qed.

Lemma filter_seq_cons (P : nat → bool) (i k : nat) :
  filter (λ j, P j) (seq i (S k)) =
    (if P i then [i] else []) ++ filter (λ j, P j) (seq (S i) k).
Proof.
  simpl. rewrite filter_cons.
  destruct (decide _) as [H|H]; destruct (P i); simpl in *; done.
Qed.

(** [S k] consecutive turns over a document that stays the same. *)
Lemma loop_prefix (w : world) (d : queue) (k : nat) :
  Forall well_formed (tasks d) →
  ∀ (i fuel : nat) (num : option nat),
    (∀ j, i ≤ j ≤ i + k → disk w j = d) →
    i + k < length (tasks d) →
    loop_test i num = true →
    ∃ t, loop (S k + fuel) w i num =
           prepend t (loop fuel w (S (i + k)) (Some (length (tasks d)))) ∧
         attempted t = seq i (S k) ∧
         failures t = filter (λ j, fails w d j) (seq i (S k)) ∧
         successes t = filter (λ j, negb (fails w d j)) (seq i (S k)).
Proof.
  intros Hwf. induction k as [|k IH]; intros i fuel num Hd Hlt Htest.
  - rewrite Nat.add_0_r in *.
    assert (disk w i = d) as Hdi by (apply Hd; lia).
    destruct (loop_one w d i fuel num Hwf Hdi Hlt Htest)
      as (t & Hl & Ha & Hf & Hs).
    exists t. change (1 + fuel) with (S fuel).
    rewrite !filter_seq_cons, Hl, Ha, Hf, Hs. simpl.
    rewrite !app_nil_r. repeat split; by destruct (fails w d i).
  - assert (disk w i = d) as Hdi by (apply Hd; lia).
    assert (i < length (tasks d)) as Hi by lia.
    destruct (loop_one w d i (S k + fuel) num Hwf Hdi Hi Htest)
      as (t & Hl & Ha & Hf & Hs).
    destruct (IH (S i) fuel (Some (length (tasks d))))
      as (t' & Hl' & Ha' & Hf' & Hs').
    { intros j Hj. apply Hd. lia. }
    { lia. }
    { simpl. apply Nat.ltb_lt. lia. }
    exists (t ++ t').
    change (S (S k) + fuel) with (S (S k + fuel)).
    rewrite Hl, Hl', prepend_prepend.
    replace (S (S i + k)) with (S (i + S k)) by lia.
    split; [done|].
    unfold attempted, failures, successes in *.
    rewrite !omap_app, Ha, Hf, Hs, Ha', Hf', Hs'.
    rewrite (filter_seq_cons (fails w d) i (S k)).
    rewrite (filter_seq_cons (λ j, negb (fails w d j)) i (S k)).
    repeat split; by destruct (fails w d i).
Qed.

(** A whole run over a document nobody edits. *)
Lemma static_run (w : world) (d : queue) (fuel : nat) :
  (∀ j, disk w j = d) →
  Forall well_formed (tasks d) →
  0 < length (tasks d) →
  length (tasks d) ≤ fuel →
  let r := start_train_queue fuel w in
  final r = All_done ∧
  position r = length (tasks d) ∧
  attempted (trace r) = seq 0 (length (tasks d)) ∧
  failures (trace r) = filter (λ j, fails w d j) (seq 0 (length (tasks d))) ∧
  successes (trace r) =
    filter (λ j, negb (fails w d j)) (seq 0 (length (tasks d))).
Proof.
  intros Hd Hwf Hpos Hfuel.
  destruct (length (tasks d)) as [|k] eqn:Hlen; [lia|].
  destruct (loop_prefix w d k Hwf 0 (fuel - S k) None)
    as (t & Hl & Ha & Hf & Hs); auto; [lia|].
  replace (S k + (fuel - S k)) with fuel in Hl by lia.
  unfold start_train_queue. rewrite Hl, Hlen, loop_exit by lia. simpl.
  unfold attempted, failures, successes in *.
  rewrite !omap_app, Ha, Hf, Hs. simpl. by rewrite !app_nil_r.
Qed.

(** ** Shrinking and growing the document between reloads *)

(** The loop test only sees the length recorded by the previous turn.  A
    document that is shorter than the counter when it is reloaded is
    indexed out of range before the "no more tasks" guard is reached. *)
Lemma shrink_raises (w : world) (i n fuel : nat) :
  i < n →
  Forall well_formed (tasks (disk w i)) →
  length (tasks (disk w i)) ≤ i →
  loop (S fuel) w i (Some n) =
    {| trace := []; position := i; final := Uncaught IndexError |}.
Proof.
  intros Hlt Hwf Hlen. rewrite loop_step by (by apply Nat.ltb_lt).
  by rewrite body_index_error by auto using load_well_formed.
Qed.

(** The "no more tasks" guard is dead code: a task that passed validation
    has a [run] entry and so is never the empty mapping. *)
Lemma no_more_tasks_unreachable (fuel : nat) (w : world) (i : nat)
    (num : option nat) :
  final (loop fuel w i num) ≠ No_more_tasks.
Proof.
  revert i num. induction fuel as [|fuel IH]; intros i num; simpl.
  - by destruct (loop_test i num).
  - destruct (loop_test i num); [|done].
    unfold body. unfold load_and_validate_yaml_file.
    destruct (validate_tasks (tasks (disk w i))) as [[]|e] eqn:Hv; [|done].
    simpl. destruct (tasks (disk w i) !! i) as [t|] eqn:Ht; [|done].
    destruct (decide (t = ∅)) as [->|Hne].
    + rewrite validate_tasks_ok in Hv.
      specialize (Hv ∅ (list_elem_of_lookup_2 _ _ _ Ht)). done.
    + destruct (getitem t "name") as [name|]; [|done]. simpl.
      destruct (getitem t "git_checkout_target") as [g|]; [|done]. simpl.
      destruct (getitem t "run") as [r|]; [|done]. simpl.
      unfold subprocess_run. simpl.
      destruct (exit_status w i Checkout _ =? 0)%Z; simpl.
      * destruct (exit_status w i Run _ =? 0)%Z; simpl;
          destruct (getitem t "name"); simpl; try done; apply IH.
      * destruct (getitem t "name"); simpl; try done; apply IH.
Qed.

(** A document that has grown by the time it is reloaded keeps the loop
    going past the length it had at the start. *)
Lemma grown_document_continues :
  let r := start_train_queue 8
             (Examples.edited Examples.three_tasks Examples.four_tasks
                Examples.all_succeed) in
  final r = All_done ∧ position r = 4 ∧ attempted (trace r) = [0; 1; 2; 3].
Proof. by vm_compute. Qed.

(** The runner leaves the loop through its test exactly when the counter
    has reached the length of the document read in the turn just
    finished. *)
Lemma loop_test_spec (i n : nat) :
  loop_test i (Some n) = false ↔ n ≤ i.
Proof. simpl. apply Nat.ltb_ge. Qed.

(** C3: the document held three tasks when the first task started and was
    cut down to one task while it ran.  The counter (1) is then at the new
    length, yet the next turn does not stop cleanly: it ends with an
    uncaught [IndexError] raised by [queue["tasks"][task_index]]. *)
Theorem shrunk_document_raises_index_error (fuel : nat) :
  let w := Examples.edited Examples.three_tasks Examples.one_task
             Examples.all_succeed in
  length (tasks (disk w 1)) ≤ 1 ∧
  start_train_queue (2 + fuel) w =
    {| trace := [Print_starting;
                 Print_executing 0 "baseline";
                 Print_checkout "main" "python train.py --run_id baseline";
                 Subprocess_run "git checkout main && git pull";
                 Reset_cuda;
                 Subprocess_run "python train.py --run_id baseline";
                 Print_success 0 "baseline"];
       position := 1;
       final := Uncaught IndexError |}.
Proof. split; [by vm_compute | reflexivity]. Qed.

(** ** Failure isolation *)

(** C4: a non-zero exit of the checkout or of the run command is caught
    inside the turn, reported together with the position and name of the
    task, and the loop goes on at the next position; over a document that
    is not edited every task is therefore attempted, whichever of them
    fail; over three tasks of which exactly one checkout fails the
    counter reaches 3 with one failure and two successes reported. *)
Theorem failing_task_is_isolated :
  (∀ (w : world) (i fuel : nat) (num : option nat) (t : task),
      loop_test i num = true →
      load_and_validate_yaml_file (disk w i) = Ok (disk w i) →
      tasks (disk w i) !! i = Some t →
      well_formed t →
      fails w (disk w i) i = true →
      ∃ tr rc cmd,
        loop (S fuel) w i num =
          prepend tr (loop fuel w (S i) (Some (length (tasks (disk w i))))) ∧
        rc ≠ 0%Z ∧
        Print_failed i (py_str (get t "name")) (CalledProcessError rc cmd) ∈ tr ∧
        failures tr = [i] ∧ successes tr = []) ∧
  (∀ (w : world) (d : queue) (fuel : nat),
      (∀ j, disk w j = d) →
      Forall well_formed (tasks d) →
      0 < length (tasks d) ≤ fuel →
      let r := start_train_queue fuel w in
      final r = All_done ∧
      position r = length (tasks d) ∧
      attempted (trace r) = seq 0 (length (tasks d)) ∧
      failures (trace r) =
        filter (λ j, fails w d j) (seq 0 (length (tasks d))) ∧
      successes (trace r) =
        filter (λ j, negb (fails w d j)) (seq 0 (length (tasks d)))) ∧
  (∀ (w : world) (d : queue) (fuel p : nat),
      (∀ j, disk w j = d) →
      Forall well_formed (tasks d) →
      length (tasks d) = 3 → 3 ≤ fuel → p < 3 →
      (∀ j ph c, exit_status w j ph c ≠ 0%Z ↔ j = p ∧ ph = Checkout) →
      let r := start_train_queue fuel w in
      final r = All_done ∧
      position r = 3 ∧
      attempted (trace r) = [0; 1; 2] ∧
      failures (trace r) = [p] ∧
      successes (trace r) = filter (λ j, j ≠ p) [0; 1; 2]).
Proof.
  split; [|split].
  - intros w i fuel num t Htest Hload Hsel Hwf Hfail.
    rewrite (loop_step _ _ _ _ Htest), (body_runs w i t Hload Hsel Hwf).
    unfold fails in Hfail. rewrite Hsel in Hfail.
    unfold outcome_events.
    destruct (exit_status w i Checkout _ =? 0)%Z eqn:Hc.
    + destruct (exit_status w i Run _ =? 0)%Z eqn:Hr; [done|].
      eexists _, _, _. split; [reflexivity|].
      split; [by apply Z.eqb_neq|]. split; [|done].
      simpl. do 5 apply list_elem_of_further. apply list_elem_of_here.
    + eexists _, _, _. split; [reflexivity|].
      split; [by apply Z.eqb_neq|]. split; [|done].
      simpl. do 3 apply list_elem_of_further. apply list_elem_of_here.
  - intros w d fuel Hd Hwf [Hpos Hfuel]. by apply static_run.
  - intros w d fuel p Hd Hwf Hlen Hfuel Hp Hexit.
    destruct (static_run w d fuel Hd Hwf) as (Hfin & Hpo & Ha & Hf & Hs);
      [lia..|].
    rewrite Hlen in *. cbv zeta in *. rewrite Hfin, Hpo, Ha, Hf, Hs.
    assert (∀ j, j < 3 → fails w d j = bool_decide (j = p)) as Hfails.
    { intros j Hj. unfold fails.
      destruct (lookup_lt_is_Some_2 (tasks d) j) as [t ->]; [lia|].
      destruct (decide (j = p)) as [->|Hne].
      - rewrite bool_decide_eq_true_2 by done.
        apply orb_true_iff. left. apply negb_true_iff, Z.eqb_neq.
        by apply Hexit.
      - rewrite bool_decide_eq_false_2 by done.
        apply orb_false_iff. split; apply negb_false_iff, Z.eqb_eq.
        + destruct (decide (exit_status w j Checkout
            (checkout_cmd (py_str (get t "git_checkout_target"))) = 0%Z))
            as [?|Hnz]; [done|]. apply Hexit in Hnz as [? _]. done.
        + destruct (decide (exit_status w j Run (py_str (get t "run")) = 0%Z))
            as [?|Hnz]; [done|]. apply Hexit in Hnz as [_ ?]. done. }
    repeat split.
    + simpl seq. rewrite !filter_cons, filter_nil.
      rewrite !Hfails by lia.
      destruct p as [|[|[|p]]]; [done..|lia].
    + simpl seq. rewrite !filter_cons, filter_nil.
      rewrite !Hfails by lia.
      destruct p as [|[|[|p]]]; [done..|lia].
Qed.

Lemma three_tasks_well_formed : Forall well_formed (tasks Examples.three_tasks).
Proof.
  unfold Examples.three_tasks. simpl.
  repeat (apply Forall_cons_2; [split; [by vm_compute | by eexists]|]).
  apply Forall_nil_2.
Qed.

Lemma second_checkout_fails_only (j : nat) (ph : phase) (c : string) :
  Examples.second_checkout_fails j ph c ≠ 0%Z ↔ j = 1 ∧ ph = Checkout.
Proof.
  unfold Examples.second_checkout_fails.
  destruct j as [|[|j]], ph; split; try done; intros [? ?]; done.
Qed.

Lemma failing_task_is_isolated_witness :
  let w := Examples.static Examples.three_tasks
             Examples.second_checkout_fails in
  (∃ tr rc cmd,
      loop 1 w 1 (Some 3) = prepend tr (loop 0 w 2 (Some 3)) ∧
      rc ≠ 0%Z ∧
      Print_failed 1 "wide" (CalledProcessError rc cmd) ∈ tr ∧
      failures tr = [1] ∧ successes tr = []) ∧
  (let r := start_train_queue 3 w in
   final r = All_done ∧ position r = 3 ∧
   attempted (trace r) = [0; 1; 2] ∧
   failures (trace r) = [1] ∧ successes (trace r) = [0; 2]).
Proof.
  intros w. destruct failing_task_is_isolated as (Hone & _ & Hthree). split.
  - apply (Hone w 1 0 (Some 3)
             (Examples.mk_task "wide" "python train.py --run_id wide" "wide-net")).
    + reflexivity.
    + by vm_compute.
    + reflexivity.
    + split; [by vm_compute | by eexists].
    + reflexivity.
  - apply (Hthree w Examples.three_tasks 3 1).
    + done.
    + apply three_tasks_well_formed.
    + reflexivity.
    + lia.
    + lia.
    + apply second_checkout_fails_only.
Defined.

(** ** Validation of the run command *)

(** C9: a document with a task whose [run] string contains the letters
    "rm" at any place is refused with a [ValueError] when it is loaded;
    the turn that loads it starts no process and prints nothing, and when
    it is the first load the runner ends before any task ran. *)
Theorem rm_substring_rejected (q : queue) (t : task) (pre post : string) :
  t ∈ tasks q →
  t !! "run" = Some (VStr (pre +:+ "rm" +:+ post)) →
  (∃ msg, load_and_validate_yaml_file q = Raise (ValueError msg)) ∧
  (∀ w i, disk w i = q → ∃ msg, body w i = ([], Raise (ValueError msg))) ∧
  (∀ w fuel, disk w 0 = q →
     ∃ msg, start_train_queue (S fuel) w =
              {| trace := [Print_starting]; position := 0;
                 final := Uncaught (ValueError msg) |}).
Proof.
  intros Hin Hrun.
  assert (invalid t) as Hbad.
  { right; right. eexists. unfold get. rewrite Hrun. split; [done|].
    apply py_in_spec. eauto. }
  destruct (load_invalid q t Hin Hbad) as [msg Hmsg].
  split; [eauto|]. split.
  - intros w i <-. exists msg. by apply body_load_error.
  - intros w fuel Hq. exists msg. unfold start_train_queue.
    rewrite loop_step by done. rewrite body_load_error with (e := ValueError msg).
    + done.
    + by rewrite Hq.
Qed.

Lemma rm_substring_rejected_witness :
  (∃ msg, load_and_validate_yaml_file Examples.harmless_rm =
            Raise (ValueError msg)) ∧
  (∀ w i, disk w i = Examples.harmless_rm →
     ∃ msg, body w i = ([], Raise (ValueError msg))) ∧
  (∀ w fuel, disk w 0 = Examples.harmless_rm →
     ∃ msg, start_train_queue (S fuel) w =
              {| trace := [Print_starting]; position := 0;
                 final := Uncaught (ValueError msg) |}).
Proof.
  apply (rm_substring_rejected Examples.harmless_rm
           (Examples.mk_task "normal" "python train.py --run_id normal_run" "main")
           "python train.py --run_id no" "al_run").
  - right. left.
  - reflexivity.
Defined.

(** ** Validation errors are not isolated *)

(** C10: the first [p] tasks of a well-formed document ran; before the
    next reload the file is edited so that some task (at any position) is
    invalid.  The reload of turn [p] raises a [ValueError] that nothing
    catches: the runner ends there, with the counter still at [p] and
    none of the remaining tasks attempted. *)
Theorem invalid_edit_aborts_queue (w : world) (d : queue) (p fuel : nat)
    (t : task) :
  0 < p < length (tasks d) →
  (∀ j, j < p → disk w j = d) →
  Forall well_formed (tasks d) →
  t ∈ tasks (disk w p) →
  invalid t →
  ∃ tr msg,
    body w p = ([], Raise (ValueError msg)) ∧
    start_train_queue (p + S fuel) w =
      {| trace := Print_starting :: tr; position := p;
         final := Uncaught (ValueError msg) |} ∧
    attempted tr = seq 0 p.
Proof.
  intros [Hp Hlen] Hd Hwf Hin Hbad.
  destruct (load_invalid _ t Hin Hbad) as [msg Hmsg].
  pose proof (body_load_error w p _ Hmsg) as Hbody.
  destruct p as [|k]; [lia|].
  destruct (loop_prefix w d k Hwf 0 (S fuel) None)
    as (tr & Hl & Ha & _ & _); [intros j ?; apply Hd; lia | lia | done |].
  exists tr, msg. split; [done|]. split; [|done].
  change (S (0 + k)) with (S k) in Hl.
  unfold start_train_queue. rewrite Hl.
  rewrite loop_step by (by apply Nat.ltb_lt). rewrite Hbody.
  unfold prepend. simpl. by rewrite app_nil_r.
Qed.

Lemma invalid_edit_aborts_queue_witness :
  let w := Examples.edited Examples.three_tasks Examples.harmless_rm
             Examples.all_succeed in
  ∃ tr msg,
    body w 1 = ([], Raise (ValueError msg)) ∧
    start_train_queue (1 + 1) w =
      {| trace := Print_starting :: tr; position := 1;
         final := Uncaught (ValueError msg) |} ∧
    attempted tr = seq 0 1.
Proof.
  intros w.
  apply (invalid_edit_aborts_queue w Examples.three_tasks 1 0
           (Examples.mk_task "normal" "python train.py --run_id normal_run" "main")).
  - simpl. lia.
  - intros j Hj. destruct j; [reflexivity | lia].
  - apply three_tasks_well_formed.
  - right. left.
  - right. right. eexists. split; reflexivity.
Defined.

End QueueFacts.

(** * Properties of the train/eval loop *)

Section TrainerFacts.
Import Trainer.

(** ** The monad *)

Lemma bind_ok {Ev A B} (m : M Ev A) (k : A → M Ev B) (t : list Ev) (a : A) :
  m = (t, Ok a) → m ≫= k = (t ++ (k a).1, (k a).2).
Proof. intros ->. unfold mbind, M_bind. by destruct (k a). Qed.

Lemma bind_raise {Ev A B} (m : M Ev A) (k : A → M Ev B) (t : list Ev) e :
  m = (t, Raise e) → m ≫= k = (t, Raise e).
Proof. by intros ->. Qed.

(** ** Division *)

Lemma true_div_ok (a : Q) (z : Z) :
  z ≠ 0 → true_div a (inject_Z z) = Ok (a / inject_Z z)%Q.
Proof.
  intros Hz. unfold true_div.
  destruct (Qeq_bool (inject_Z z) 0) eqn:Hq; [|done].
  apply Qeq_bool_eq in Hq. unfold Qeq in Hq. simpl in Hq. lia.
Qed.

Lemma true_div_cases (a b : Q) :
  true_div a b = Raise ZeroDivisionError ∨ ∃ q, true_div a b = Ok q.
Proof. unfold true_div. destruct (Qeq_bool b 0); eauto. Qed.

Lemma true_div_zero (a : Q) : true_div a (inject_Z 0) = Raise ZeroDivisionError.
Proof. reflexivity. Qed.

Lemma py_mod_ok (a b : Z) : b ≠ 0 → py_mod a b = Ok (a mod b).
Proof. intros Hb. unfold py_mod. by apply Z.eqb_neq in Hb as ->. Qed.

(** ** Observations distribute over concatenation *)

Lemma training_passes_app (t t' : list event) :
  training_passes (t ++ t') = (training_passes t + training_passes t')%nat.
Proof. induction t as [|[] t IH]; simpl; auto. Qed.

Lemma evaluation_passes_app (t t' : list event) :
  evaluation_passes (t ++ t') =
    (evaluation_passes t + evaluation_passes t')%nat.
Proof. induction t as [|[] t IH]; simpl; auto. Qed.

Lemma points_app (k : string) (t t' : list event) :
  points k (t ++ t') = points k t ++ points k t'.
Proof.
  induction t as [|[] t IH]; simpl; auto.
  destruct (has_key k metrics); simpl; by rewrite IH.
Qed.

Lemma checkpoints_app (t t' : list event) :
  checkpoints (t ++ t') = checkpoints t ++ checkpoints t'.
Proof. induction t as [|[] t IH]; simpl; auto. by rewrite IH. Qed.

Lemma plain_app (t t' : list event) : plain t → plain t' → plain (t ++ t').
Proof.
  intros [Hp Hc] [Hp' Hc']. split.
  - by rewrite points_app, Hp, Hp'.
  - by rewrite checkpoints_app, Hc, Hc'.
Qed.

(** ** Flushing the training window *)

Lemma flush_ok (l : locals) (b : batch) (epoch : Z) (i n : nat) :
  num_predictions l ≠ 0 → n ≠ 0%nat →
  flush l b epoch i n =
    ([Log_metrics (train_point l b)
        (inject_Z epoch + inject_Z (Z.of_nat i) / inject_Z (Z.of_nat n))%Q],
     Ok (flushed l)).
Proof.
  intros Hp Hn. unfold flush, lift.
  rewrite !true_div_ok by lia. reflexivity.
Qed.

Lemma flush_empty_window (l : locals) (b : batch) (epoch : Z) (i n : nat) :
  num_predictions l = 0 →
  flush l b epoch i n = ([], Raise ZeroDivisionError).
Proof. intros Hp. unfold flush. rewrite Hp. reflexivity. Qed.

(** ** Traces of a bind *)

Lemma bind_trace {Ev A B} (P : list Ev → Prop) (m : M Ev A) (k : A → M Ev B) :
  (∀ t t', P t → P t' → P (t ++ t')) →
  P m.1 → (∀ a, P (k a).1) → P (m ≫= k).1.
Proof.
  intros Happ Hm Hk. destruct m as [t [a|e]]; simpl in *; [|done].
  specialize (Hk a). destruct (k a) as [t' r]. simpl in *. by apply Happ.
Qed.

Lemma ok_unit {Ev} (m : M Ev unit) : is_ok m.2 = true → ∃ t, m = (t, Ok tt).
Proof. destruct m as [t [[]|e]]; [eauto | done]. Qed.

Lemma logged_app (k : string) (t t' : list event) :
  logged k (t ++ t') = logged k t ++ logged k t'.
Proof.
  induction t as [|[] t IH]; simpl; auto.
  destruct (value_of k metrics); simpl; by rewrite IH.
Qed.

Lemma scheduler_steps_app (t t' : list event) :
  scheduler_steps (t ++ t') = (scheduler_steps t + scheduler_steps t')%nat.
Proof. induction t as [|[] t IH]; simpl; auto. Qed.

Lemma quiet_app (t t' : list event) : quiet t → quiet t' → quiet (t ++ t').
Proof.
  intros (H1 & H2 & H3 & H4) (H1' & H2' & H3' & H4'). unfold quiet.
  rewrite logged_app, points_app, checkpoints_app, scheduler_steps_app.
  by rewrite H1, H2, H3, H4, H1', H2', H3', H4'.
Qed.

Lemma inert_app (t t' : list event) : inert t → inert t' → inert (t ++ t').
Proof.
  intros (H1 & H2 & H3) (H1' & H2' & H3'). unfold inert.
  rewrite training_passes_app, evaluation_passes_app, H1, H2, H1', H2'.
  auto using quiet_app.
Qed.

Lemma inert_lift {A} (r : result A) : inert (lift (Ev:=event) r).1.
Proof. done. Qed.

(** ** The passes *)

Lemma accumulate_predictions (l : locals) (b : batch) :
  num_predictions (accumulate l b) = num_predictions l + Z.of_nat (b_len b).
Proof. reflexivity. Qed.

Lemma flush_due_ok (i : nat) (log_interval : Z) :
  log_interval ≠ 0 →
  flush_due i log_interval =
    Ok (negb (i =? 0)%nat && (Z.of_nat i mod log_interval =? 0)).
Proof.
  intros Hli. unfold flush_due. destruct (i =? 0)%nat; [done|].
  by rewrite py_mod_ok.
Qed.

Lemma log_gradients_inert (ps : list param) : inert (log_gradients ps).1.
Proof.
  induction ps as [|p ps IH]; [done|]. cbn [log_gradients].
  destruct (p_grad p) as [g|]; [|done].
  apply bind_trace; [apply inert_app | apply inert_lift | intros r].
  apply bind_trace; [apply inert_app | done | intros _; apply IH].
Qed.

Lemma log_gradients_ok (ps : list param) :
  gradients_ok ps → ∃ t, log_gradients ps = (t, Ok tt).
Proof.
  induction 1 as [|p ps Hp _ [t IH]]; [by exists []|].
  cbn [log_gradients]. destruct (p_grad p) as [g|] eqn:Hg; [|eauto].
  destruct Hp as [?|Hw]; [done|].
  unfold lift, true_div. rewrite Hw, IH. cbn. eauto.
Qed.

(** A parameter with a gradient and a zero mean weight stops the
    printout, and with it the pass, at that parameter. *)
Lemma log_gradients_zero_weight (ps : list param) :
  ¬ gradients_ok ps → (log_gradients ps).2 = Raise ZeroDivisionError.
Proof.
  induction ps as [|p ps IH]; intros Hno.
  - destruct Hno. constructor.
  - cbn [log_gradients]. destruct (p_grad p) as [g|] eqn:Hg.
    + unfold lift, true_div. destruct (Qeq_bool (p_weight p) 0) eqn:Hw; [done|].
      cbn. destruct (log_gradients ps) as [t r] eqn:Hl. cbn.
      apply IH. intros Hps. apply Hno. constructor; auto.
    + apply IH. intros Hps. apply Hno. constructor; auto.
Qed.

Lemma flush_inert (l : locals) (b : batch) (epoch : Z) (i n : nat) :
  inert (flush l b epoch i n).1.
Proof.
  unfold flush.
  repeat (apply bind_trace; [apply inert_app | apply inert_lift | intros ?]).
  done.
Qed.

Lemma train_batches_inert (bs : list batch) (i n : nat)
    (log_interval epoch : Z) (l : locals) :
  inert (train_batches bs i n log_interval epoch l).1.
Proof.
  revert i l. induction bs as [|b bs IH]; intros i l; [done|].
  cbn [train_batches].
  apply bind_trace; [apply inert_app | done | intros _].
  apply bind_trace; [apply inert_app | apply log_gradients_inert | intros _].
  apply bind_trace; [apply inert_app | apply inert_lift | intros due].
  apply bind_trace; [apply inert_app | | intros l2; apply IH].
  destruct due; [apply flush_inert | done].
Qed.

(** Whether it completes or raises, a training pass calls [model.train()]
    once, at its start, and an evaluation pass [model.eval()]; neither
    logs a learning rate, saves a checkpoint or steps the scheduler. *)
Lemma train_step_trace (dl : list batch) (log_interval epoch : Z) :
  ∃ t, (train_step dl log_interval epoch).1 = Model_train :: t ∧ inert t.
Proof.
  unfold train_step.
  pose proof (train_batches_inert dl 0 (length dl) log_interval epoch init)
    as Hi.
  destruct (train_batches dl 0 (length dl) log_interval epoch init)
    as [t [l|x]]; cbn in *; eexists; (split; [reflexivity|]); [|done].
  by rewrite app_nil_r.
Qed.

Lemma test_step_trace (dl : list batch) (epoch : Z) :
  ∃ t, (test_step dl epoch).1 = Model_eval :: t ∧ inert t.
Proof.
  unfold test_step.
  assert (inert (report (foldl accumulate init dl) (length dl) epoch).1) as Hi.
  { unfold report.
    repeat (apply bind_trace; [apply inert_app | apply inert_lift | intros ?]).
    done. }
  destruct (report _ _ _) as [t r]; cbn in *. eauto.
Qed.

(** The batch loop on trainable batches returns. *)
Lemma train_batches_ok (bs : list batch) :
  Forall trainable bs →
  ∀ (i n : nat) (log_interval epoch : Z) (l : locals),
    log_interval ≠ 0 → n ≠ 0%nat → 0 ≤ num_predictions l →
    ∃ t l', train_batches bs i n log_interval epoch l = (t, Ok l').
Proof.
  induction 1 as [|b bs [Hb Hg] _ IH]; intros i n li epoch l Hli Hn Hl.
  - by exists [], l.
  - assert (0 < num_predictions (accumulate l b)) as Hacc.
    { rewrite accumulate_predictions. lia. }
    destruct (log_gradients_ok _ Hg) as [tg Htg].
    cbn [train_batches]. unfold lift. rewrite Htg, (flush_due_ok i li Hli).
    destruct (negb (i =? 0)%nat && (Z.of_nat i mod li =? 0)).
    + destruct (IH (S i) n li epoch (flushed (accumulate l b)) Hli Hn)
        as (t & l' & Ht); [done|].
      rewrite flush_ok by lia.
      eexists _, l'. cbn. rewrite Ht. cbn. reflexivity.
    + destruct (IH (S i) n li epoch (accumulate l b) Hli Hn)
        as (t & l' & Ht); [lia|].
      eexists _, l'. cbn. rewrite Ht. cbn. reflexivity.
Qed.

Lemma train_step_ok (dataloader : list batch) (log_interval epoch : Z) :
  Forall trainable dataloader →
  log_interval ≠ 0 →
  is_ok (train_step dataloader log_interval epoch).2 = true.
Proof.
  intros Hdl Hli. unfold train_step.
  destruct dataloader as [|b bs]; [done|].
  destruct (train_batches_ok (b :: bs) Hdl 0 (length (b :: bs))
              log_interval epoch init Hli) as (t & l' & Ht); [done..|].
  by rewrite Ht.
Qed.

Lemma foldl_accumulate_predictions (dl : list batch) (l : locals) :
  num_predictions (foldl accumulate l dl) =
    num_predictions l + Z.of_nat (sum_list (b_len <$> dl)).
Proof.
  revert l. induction dl as [|b dl IH]; intros l; simpl; [lia|].
  rewrite IH, accumulate_predictions.
  change (list_fmap batch nat b_len dl) with (b_len <$> dl). lia.
Qed.

Lemma report_ok (l : locals) (n : nat) (epoch : Z) :
  n ≠ 0%nat → num_predictions l ≠ 0 →
  ∃ m, report l n epoch = ([Log_metrics m (inject_Z epoch)], Ok tt) ∧
       has_key "learning_rate" m = false ∧
       value_of "val/loss" m =
         Some (running_loss l / inject_Z (Z.of_nat n))%Q.
Proof.
  intros Hn Hp. unfold report, lift.
  rewrite !true_div_ok by lia. eexists. split; [reflexivity|]. done.
Qed.

Lemma report_empty (l : locals) (n : nat) (epoch : Z) :
  n = 0%nat ∨ num_predictions l = 0 →
  report l n epoch = ([], Raise ZeroDivisionError).
Proof.
  intros [->|Hp]; unfold report, lift; [reflexivity|].
  rewrite Hp.
  destruct (true_div_cases (running_loss l) (inject_Z (Z.of_nat n)))
    as [->|[q ->]]; reflexivity.
Qed.

Lemma test_step_ok (dataloader : list batch) (epoch : Z) :
  dataloader ≠ [] →
  Forall (λ b, (0 < b_len b)%nat) dataloader →
  is_ok (test_step dataloader epoch).2 = true.
Proof.
  intros Hne Hdl. unfold test_step.
  destruct (report_ok (foldl accumulate init dataloader)
              (length dataloader) epoch) as (m & Hr & _).
  - by destruct dataloader.
  - rewrite foldl_accumulate_predictions. simpl.
    destruct Hdl as [|b bs Hb _]; [done|]. simpl. lia.
  - by rewrite Hr.
Qed.

(** ** The epoch loop *)

#[local] Arguments train_step : simpl never.
#[local] Arguments test_step : simpl never.

Lemma checkpoint_due_ok (epoch k epoch_end : Z) :
  k ≠ 0 →
  checkpoint_due epoch k epoch_end =
    Ok (bool_decide (epoch mod k = 0 ∨ epoch = epoch_end - 1)).
Proof.
  intros Hk. unfold checkpoint_due. rewrite py_mod_ok by done. f_equal.
  case_bool_decide as H.
  - apply orb_true_iff. destruct H; [left|right]; by apply Z.eqb_eq.
  - apply orb_false_iff. split; apply Z.eqb_neq; naive_solver.
Qed.

Ltac observe :=
  repeat (cbn; rewrite ?training_passes_app, ?evaluation_passes_app,
            ?points_app, ?checkpoints_app, ?logged_app, ?scheduler_steps_app).

(** The loop over epochs whose passes all return. *)
Lemma epochs_complete (bk : backend) (log_interval k epoch_end : Z) :
  ∀ (todo : nat) (epoch : Z) (steps : nat),
    (todo ≠ 0%nat → k ≠ 0) →
    (∀ e, epoch ≤ e < epoch + Z.of_nat todo →
       is_ok (train_step (train_dataloader bk e) log_interval e).2 = true ∧
       is_ok (test_step (val_dataloader bk e) (e + 1)).2 = true) →
    ∃ t, epochs bk todo epoch steps epoch_end k log_interval = (t, Ok tt) ∧
         training_passes t = todo ∧
         evaluation_passes t = todo ∧
         points "learning_rate" t =
           inject_Z <$> seqZ (epoch + 1) (Z.of_nat todo) ∧
         checkpoints t =
           filter (λ e, e mod k = 0 ∨ e = epoch_end - 1)
             (seqZ epoch (Z.of_nat todo)) ∧
         logged "learning_rate" t = lr bk <$> seq steps todo ∧
         scheduler_steps t = todo.
Proof.
  induction todo as [|todo IH]; intros epoch steps Hk Hp.
  - exists []. by repeat split.
  - destruct (Hp epoch) as [Htr Hte]; [lia|].
    destruct (train_step_trace (train_dataloader bk epoch) log_interval epoch)
      as (t1 & Ht1 & Hp1 & He1 & Hl1 & Hq1 & Hc1 & Hs1).
    destruct (test_step_trace (val_dataloader bk epoch) (epoch + 1))
      as (t2 & Ht2 & Hp2 & He2 & Hl2 & Hq2 & Hc2 & Hs2).
    apply ok_unit in Htr as [t1' H1]. apply ok_unit in Hte as [t2' H2].
    rewrite H1 in Ht1. rewrite H2 in Ht2. simpl in Ht1, Ht2. subst t1' t2'.
    destruct (IH (epoch + 1) (S steps))
      as (t3 & H3 & Hp3 & He3 & Hq3 & Hc3 & Hl3 & Hs3).
    { intros _. by apply Hk. }
    { intros e He. apply Hp. lia. }
    cbn [epochs]. unfold lift. rewrite checkpoint_due_ok by (by apply Hk).
    rewrite H1. cbn. rewrite H2. cbn.
    rewrite (seqZ_cons epoch) by lia.
    rewrite (seqZ_cons (epoch + 1)) by lia.
    replace (Z.pred (Z.of_nat (S todo))) with (Z.of_nat todo) by lia.
    replace (Z.succ epoch) with (epoch + 1) by lia.
    replace (Z.succ (epoch + 1)) with (epoch + 1 + 1) by lia.
    rewrite filter_cons, fmap_cons.
    case_bool_decide as Hdue.
    + rewrite decide_True by done. cbn. rewrite H3. cbn.
      eexists. split; [reflexivity|]. observe.
      rewrite Hp1, Hp2, Hp3, He1, He2, He3, Hl1, Hl2, Hl3, Hq1, Hq2, Hq3,
        Hc1, Hc2, Hc3, Hs1, Hs2, Hs3.
      repeat split; simpl; lia.
    + rewrite decide_False by done. cbn. rewrite H3. cbn.
      eexists. split; [reflexivity|]. observe.
      rewrite Hp1, Hp2, Hp3, He1, He2, He3, Hl1, Hl2, Hl3, Hq1, Hq2, Hq3,
        Hc1, Hc2, Hc3, Hs1, Hs2, Hs3.
      repeat split; simpl; lia.
Qed.



(** [healthy] is one way to meet [completes]. *)
Lemma healthy_completes (bk : backend)
    (epoch_start epoch_end checkpoint_interval log_interval : Z) :
  healthy bk log_interval checkpoint_interval →
  completes bk epoch_start epoch_end checkpoint_interval log_interval.
Proof.
  intros (Hli & Hk & Hdl). split; [done|]. intros e _.
  destruct (Hdl e) as (Htr & Hne & Hval).
  split; [by apply train_step_ok | by apply test_step_ok].
Qed.

(** C1 (amended): with [epoch_start <= epoch_end], on every input on
    which the loop returns (all passes of the range complete and the
    checkpoint test can be evaluated), it makes
    [epoch_end - epoch_start] training passes and as many evaluation
    passes, and logs the learning rate once before the first epoch, at
    position [epoch_start], and once at the end of every epoch [e], at
    position [e + 1]: [epoch_end - epoch_start + 1] points, at
    [epoch_start], [epoch_start + 1], ..., [epoch_end]. *)
Theorem train_passes_and_lr_points (bk : backend)
    (epoch_start epoch_end checkpoint_interval log_interval : Z) :
  epoch_start ≤ epoch_end →
  completes bk epoch_start epoch_end checkpoint_interval log_interval →
  ∃ t, train bk epoch_start epoch_end checkpoint_interval log_interval
         = (t, Ok tt) ∧
       Z.of_nat (training_passes t) = epoch_end - epoch_start ∧
       Z.of_nat (evaluation_passes t) = epoch_end - epoch_start ∧
       points "learning_rate" t =
         inject_Z <$> seqZ epoch_start (epoch_end - epoch_start + 1) ∧
       Z.of_nat (length (points "learning_rate" t)) =
         epoch_end - epoch_start + 1.
Proof.
  intros Hle [Hk Hp].
  destruct (epochs_complete bk log_interval checkpoint_interval epoch_end
              (Z.to_nat (epoch_end - epoch_start)) epoch_start 0)
    as (t & Ht & Htp & Hep & Hlr & _).
  { intros Hn. apply Hk. lia. }
  { intros e He. apply Hp. lia. }
  unfold train. rewrite Ht. eexists. split; [reflexivity|].
  cbn. rewrite Htp, Hep, Hlr, Z2Nat.id by lia.
  assert (inject_Z epoch_start ::
            (inject_Z <$> seqZ (epoch_start + 1) (epoch_end - epoch_start))
          = inject_Z <$> seqZ epoch_start (epoch_end - epoch_start + 1))
    as ->.
  { rewrite (seqZ_cons epoch_start) by lia. rewrite fmap_cons.
    do 3 f_equal; lia. }
  rewrite length_fmap, length_seqZ. repeat split; lia.
Qed.

Lemma one_sample_trainable (l : Q) : trainable (Examples.one_sample l).
Proof.
  split; [simpl; lia|]. simpl.
  apply Forall_cons_2; [by right|]. apply Forall_cons_2; [by left|].
  apply Forall_nil_2.
Qed.

Lemma steady_healthy : healthy Examples.steady 1 1.
Proof.
  split; [done|]. split; [done|]. intros e. split; [|split].
  - simpl. repeat (apply Forall_cons_2; [apply one_sample_trainable|]).
    apply Forall_nil_2.
  - done.
  - repeat constructor.
Qed.

Lemma steady_completes (epoch_start epoch_end k : Z) :
  k ≠ 0 → completes Examples.steady epoch_start epoch_end k 1.
Proof.
  intros Hk. split; [done|]. intros e _. split; by vm_compute.
Qed.

Lemma train_passes_and_lr_points_witness :
  ∃ t, train Examples.steady 0 2 1 1 = (t, Ok tt) ∧
       Z.of_nat (training_passes t) = 2 - 0 ∧
       Z.of_nat (evaluation_passes t) = 2 - 0 ∧
       points "learning_rate" t = inject_Z <$> seqZ 0 (2 - 0 + 1) ∧
       Z.of_nat (length (points "learning_rate" t)) = 2 - 0 + 1.
Proof.
  apply (train_passes_and_lr_points Examples.steady 0 2 1 1).
  - lia.
  - split; [done|]. intros e _. split; by vm_compute.
Defined.

(** C1 as stated fails: two epochs give three learning-rate points, at
    positions 0, 1 and 2, not four. *)
Lemma lr_points_not_two_per_epoch :
  let r := train Examples.steady 0 2 1 1 in
  r.2 = Ok tt ∧
  training_passes r.1 = 2%nat ∧
  evaluation_passes r.1 = 2%nat ∧
  points "learning_rate" r.1 = [inject_Z 0; inject_Z 1; inject_Z 2] ∧
  Z.of_nat (length (points "learning_rate" r.1)) ≠ 2 * (2 - 0).
Proof. by vm_compute. Qed.

(** C5: with [checkpoint_interval = k >= 1] and the range [[0, E)],
    [E >= 1], in a run whose passes all complete, the epochs for which
    [save_model] is called are exactly the multiples of [k] below [E]
    together with [E - 1], each once. *)
Theorem checkpoint_cadence (bk : backend) (E k log_interval : Z) :
  1 ≤ k → 1 ≤ E →
  completes bk 0 E k log_interval →
  ∃ t, train bk 0 E k log_interval = (t, Ok tt) ∧
       checkpoints t = filter (λ e, e mod k = 0 ∨ e = E - 1) (seqZ 0 E) ∧
       (∀ e, e ∈ checkpoints t ↔
             0 ≤ e < E ∧ ((∃ j, 0 ≤ j ∧ e = j * k) ∨ e = E - 1)) ∧
       E - 1 ∈ checkpoints t ∧
       NoDup (checkpoints t).
Proof.
  intros Hk HE [_ Hp].
  destruct (epochs_complete bk log_interval k E (Z.to_nat (E - 0)) 0 0)
    as (t & Ht & _ & _ & _ & Hck & _).
  { intros _. lia. }
  { intros e He. apply Hp. lia. }
  unfold train. rewrite Ht. eexists. split; [reflexivity|].
  cbn. rewrite Hck, Z2Nat.id, Z.sub_0_r by lia.
  assert (∀ e, e ∈ filter (λ e, e mod k = 0 ∨ e = E - 1) (seqZ 0 E) ↔
               0 ≤ e < E ∧ ((∃ j, 0 ≤ j ∧ e = j * k) ∨ e = E - 1)) as Hmem.
  { intros e. rewrite list_elem_of_filter, elem_of_seqZ. split.
    - intros [[Hm| ->] He]; (split; [lia|]); [left | by right].
      apply Z.mod_divide in Hm as [j ->]; [|lia]. exists j. split; [nia|done].
    - intros [He [(j & Hj & ->)| ->]]; (split; [|lia]); [left | by right].
      by apply Z_mod_mult. }
  split; [done|]. split; [done|]. split.
  - apply Hmem. split; [lia | by right].
  - apply NoDup_filter, NoDup_seqZ.
Qed.

Lemma checkpoint_cadence_witness :
  ∃ t, train Examples.steady 0 5 3 1 = (t, Ok tt) ∧
       checkpoints t = filter (λ e, e mod 3 = 0 ∨ e = 5 - 1) (seqZ 0 5) ∧
       (∀ e, e ∈ checkpoints t ↔
             0 ≤ e < 5 ∧ ((∃ j, 0 ≤ j ∧ e = j * 3) ∨ e = 5 - 1)) ∧
       5 - 1 ∈ checkpoints t ∧
       NoDup (checkpoints t).
Proof.
  apply (checkpoint_cadence Examples.steady 5 3 1).
  - lia.
  - lia.
  - split; [done|]. intros e _. split; by vm_compute.
Defined.

Example checkpoints_interval_3_of_5 :
  checkpoints (train Examples.steady 0 5 3 1).1 = [0; 3; 4].
Proof. by vm_compute. Qed.

(** ** What a training metric point reports *)

(** The loss in a flushed point is the loss of the batch just processed,
    whatever was summed into [train_loss]. *)
Lemma flush_logs_batch_loss (l : locals) (b : batch) (epoch : Z) (i n : nat)
    (tr : list event) (l' : locals) :
  flush l b epoch i n = (tr, Ok l') →
  logged "train/loss" tr = [b_loss b] ∧ running_loss l' = running_loss l.
Proof.
  unfold flush, lift.
  destruct (true_div (inject_Z (num_correct l)) _); [|done].
  destruct (true_div (inject_Z (num_incorrect_localization l)) _); [|done].
  destruct (true_div (inject_Z (num_incorrect_other l)) _); [|done].
  destruct (true_div (inject_Z (num_incorrect_background l)) _); [|done].
  destruct (true_div (inject_Z (Z.of_nat i)) _); [|done].
  cbn. by intros [= <- <-].
Qed.

(** C6: two batches with losses 1 and 3 and [log_interval = 1].  The only
    flush happens after batch 1, over a window holding both batches; the
    point carries the loss 3 of batch 1, not the window average 2, which
    is what the evaluation pass reports for the same batches. *)
Theorem train_loss_point_is_last_batch_loss :
  let r := train_step Examples.two_batches 1 0 in
  r.2 = Ok tt ∧
  logged "train/loss" r.1 = [3%Q] ∧
  ¬ (3 == (1 + 3) / 2)%Q ∧
  ∃ v, logged "val/loss" (test_step Examples.two_batches 1).1 = [v] ∧
       (v == (1 + 3) / 2)%Q.
Proof.
  cbv zeta. split; [by vm_compute|]. split; [by vm_compute|].
  split; [by vm_compute|]. eexists. split; [by vm_compute|]. by vm_compute.
Qed.

(** ** Flushing a window *)

(** C7 as stated fails: an evaluation pass over no samples, a training
    window made of empty batches and a second flush right after a flush
    all end in [ZeroDivisionError]. *)
Lemma flush_without_samples_faults :
  test_step [] 1 = ([Model_eval], Raise ZeroDivisionError) ∧
  (train_step [Examples.no_sample; Examples.no_sample] 1 0).2
    = Raise ZeroDivisionError ∧
  ∃ tr l',
    flush (accumulate init (Examples.one_sample 1)) (Examples.one_sample 1)
      0 1 2 = (tr, Ok l') ∧
    flush l' (Examples.one_sample 1) 0 1 2 = ([], Raise ZeroDivisionError).
Proof.
  split; [by vm_compute|]. split; [by vm_compute|].
  eexists _, _. split; by vm_compute.
Qed.

(** C7 (amended): a flush of the training window sets the four category
    counters and the sample count back to zero.  A window with a
    non-zero sample count is flushed to one metric point; a window whose
    sample count is zero makes the flush, and likewise the report of an
    evaluation pass, raise [ZeroDivisionError]. *)
Theorem flush_resets_counts_and_needs_samples (l : locals) (b : batch)
    (epoch : Z) (i n : nat) (dl : list batch) :
  n ≠ 0%nat →
  (num_predictions l ≠ 0 →
     ∃ m s l', flush l b epoch i n = ([Log_metrics m s], Ok l') ∧
               num_correct l' = 0 ∧
               num_incorrect_localization l' = 0 ∧
               num_incorrect_other l' = 0 ∧
               num_incorrect_background l' = 0 ∧
               num_predictions l' = 0) ∧
  (num_predictions l = 0 →
     flush l b epoch i n = ([], Raise ZeroDivisionError)) ∧
  (num_predictions l ≠ 0 →
     ∃ m, report l n epoch = ([Log_metrics m (inject_Z epoch)], Ok tt)) ∧
  (num_predictions l = 0 →
     report l n epoch = ([], Raise ZeroDivisionError)) ∧
  (sum_list (b_len <$> dl) = 0%nat →
     test_step dl epoch = ([Model_eval], Raise ZeroDivisionError)).
Proof.
  intros Hn. repeat split.
  - intros Hp. rewrite flush_ok by done. by eexists _, _, _.
  - apply flush_empty_window.
  - intros Hp. destruct (report_ok l n epoch Hn Hp) as (m & -> & _). eauto.
  - intros Hp. apply report_empty. by right.
  - intros Hsum. unfold test_step. rewrite report_empty; [done|].
    right. rewrite foldl_accumulate_predictions, Hsum. done.
Qed.

Lemma flush_resets_counts_and_needs_samples_witness :
  (∃ m s l',
      flush (accumulate init (Examples.one_sample 1)) (Examples.one_sample 1)
        0 1 2 = ([Log_metrics m s], Ok l') ∧
      num_correct l' = 0 ∧ num_incorrect_localization l' = 0 ∧
      num_incorrect_other l' = 0 ∧ num_incorrect_background l' = 0 ∧
      num_predictions l' = 0) ∧
  flush init (Examples.one_sample 1) 0 1 2 = ([], Raise ZeroDivisionError) ∧
  (∃ m, report (accumulate init (Examples.one_sample 1)) 2 0
          = ([Log_metrics m (inject_Z 0)], Ok tt)) ∧
  report init 2 0 = ([], Raise ZeroDivisionError) ∧
  test_step [Examples.no_sample] 0 = ([Model_eval], Raise ZeroDivisionError).
Proof.
  destruct (flush_resets_counts_and_needs_samples
              (accumulate init (Examples.one_sample 1))
              (Examples.one_sample 1) 0 1 2 [Examples.no_sample])
    as (Hf & _ & Hr & _ & Ht); [lia|].
  destruct (flush_resets_counts_and_needs_samples
              init (Examples.one_sample 1) 0 1 2 [])
    as (_ & Hf0 & _ & Hr0 & _); [lia|].
  split; [apply Hf; by vm_compute|].
  split; [apply Hf0; reflexivity|].
  split; [apply Hr; by vm_compute|].
  split; [apply Hr0; reflexivity|].
  apply Ht. reflexivity.
Defined.

End TrainerFacts.

(** * Properties of the entry point *)

Section EntryFacts.
Import Entry.

Lemma resolve_with_path (e : env) (a : args) (p : string) :
  continue_from_checkpoint_path a = Some p →
  resolve_epoch_start e a = ([], Ok 0).
Proof.
  intros Hp. unfold resolve_epoch_start. rewrite Hp.
  by destruct (continue_from_checkpoint_run_id a).
Qed.

(** Without an explicit path and with a run id the loader is asked for
    the latest checkpoint of that run. *)
Lemma resolve_latest (e : env) (a : args) (rid : string) :
  continue_from_checkpoint_run_id a = Some rid →
  continue_from_checkpoint_path a = None →
  resolve_epoch_start e a =
    ([Load_checkpoint rid None], load_checkpoint e rid None).
Proof.
  intros Hr Hp. unfold resolve_epoch_start. rewrite Hr, Hp. cbn.
  by destruct (load_checkpoint e rid None).
Qed.

(** C2: whenever [--continue_from_checkpoint_path] is supplied the loader
    is not called at all and the run starts from epoch 0; the path never
    reaches [load_checkpoint]. *)
Theorem explicit_checkpoint_path_is_ignored (e : env) (a : args)
    (p : string) :
  continue_from_checkpoint_path a = Some p →
  resolve_epoch_start e a = ([], Ok 0) ∧
  loads (train e a).1 = [] ∧
  (is_ok (train e a).2 = true → engine_starts (train e a).1 = [0]).
Proof.
  intros Hp. split; [by eapply resolve_with_path|].
  unfold train. rewrite (resolve_with_path e a p Hp).
  destruct (bool_decide (device a ∈ ["cpu"; "cuda"])); cbn; [|done].
  destruct (bool_decide (device a = "cuda") && negb (cuda_is_available e));
    cbn; [done|].
  destruct (bool_decide (lr_scheduler a = "custom")); cbn; done.
Qed.

Lemma explicit_checkpoint_path_is_ignored_witness :
  resolve_epoch_start Examples.saved_epoch_5 Examples.resume_args
    = ([], Ok 0) ∧
  loads (train Examples.saved_epoch_5 Examples.resume_args).1 = [] ∧
  (is_ok (train Examples.saved_epoch_5 Examples.resume_args).2 = true →
   engine_starts (train Examples.saved_epoch_5 Examples.resume_args).1 = [0]).
Proof.
  apply (explicit_checkpoint_path_is_ignored Examples.saved_epoch_5
           Examples.resume_args "checkpoints/r1/epoch_5.pth").
  reflexivity.
Defined.

Example resume_from_path_starts_at_zero :
  train Examples.saved_epoch_5 Examples.resume_args =
    ([Create_dataloaders 32 8; Build_model "cpu"; Run_manager "r2";
      Get_custom_lr_scheduler; Log_data; Log_files;
      Engine_train 0 10 1 10; End_run],
     Ok tt).
Proof. by vm_compute. Qed.

(** ** Confirmation prompt *)

Lemma confirmed_runs_train (e : env) (a : args) (inp : string) :
  lower inp = "yes" →
  main e a inp =
    (Input_prompt (run_id a) :: Print_starting (run_id a) :: (train e a).1,
     (train e a).2).
Proof.
  intros Hy. unfold main. rewrite bool_decide_eq_false_2 by naive_solver.
  cbn. by destruct (train e a).
Qed.

(** C8: when the lower-cased answer is not "yes" the script prompts,
    raises, and does nothing else: [train] is not entered, so no data
    loader, model or run is created. *)
Theorem refused_confirmation_has_no_side_effect (e : env) (a : args)
    (inp : string) :
  lower inp ≠ "yes" →
  main e a inp =
    ([Input_prompt (run_id a)], Raise (Exception "Type yes on input...")) ∧
  Forall (λ ev, side_effect ev = false) (main e a inp).1.
Proof.
  intros Hno. assert (main e a inp =
    ([Input_prompt (run_id a)], Raise (Exception "Type yes on input...")))
    as Hmain.
  { unfold main. by rewrite bool_decide_eq_true_2. }
  split; [done|]. rewrite Hmain. by repeat constructor.
Qed.

Lemma refused_confirmation_has_no_side_effect_witness :
  main Examples.saved_epoch_5 Examples.resume_args "no" =
    ([Input_prompt "r2"], Raise (Exception "Type yes on input...")) ∧
  Forall (λ ev, side_effect ev = false)
    (main Examples.saved_epoch_5 Examples.resume_args "no").1.
Proof.
  apply (refused_confirmation_has_no_side_effect Examples.saved_epoch_5
           Examples.resume_args "no").
  by vm_compute.
Defined.

End EntryFacts.

(** * Further properties of the queue runner *)

Section QueueMore.
Import Queue.
Local Open Scope nat_scope.

(** ** What validation accepts and what it reports *)

(** A document is accepted exactly when none of its tasks is invalid; it
    is then returned as it was read, and every refusal is a
    [ValueError]. *)
Theorem load_accepts_iff_all_valid (q : queue) :
  (load_and_validate_yaml_file q = Ok q ↔ ∀ t, t ∈ tasks q → ¬ invalid t) ∧
  (∀ q', load_and_validate_yaml_file q = Ok q' → q' = q) ∧
  (∀ e, load_and_validate_yaml_file q = Raise e → ∃ msg, e = ValueError msg).
Proof.
  unfold load_and_validate_yaml_file. split; [|split].
  - split.
    + intros Hok t Hin Hbad.
      destruct (validate_tasks_invalid _ _ Hin Hbad) as [msg Hmsg].
      by rewrite Hmsg in Hok.
    + intros Hall. destruct (validate_tasks_cases (tasks q)) as [->|[msg Hmsg]];
        [done|]. exfalso.
      assert (¬ ∀ t, t ∈ tasks q → validate_task t = Ok tt) as Hno.
      { rewrite <- validate_tasks_ok. congruence. }
      apply Hno. intros t Hin.
      destruct (validate_task_cases t) as [?|Hbad]; [done|].
      apply validate_task_invalid in Hbad. by destruct (Hall t Hin).
  - intros q'. destruct (validate_tasks (tasks q)); congruence.
  - intros e. destruct (validate_tasks_cases (tasks q)) as [->|[msg ->]];
      [done|]. intros [= <-]. eauto.
Qed.

Lemma load_accepts_iff_all_valid_witness :
  load_and_validate_yaml_file Examples.three_tasks = Ok Examples.three_tasks.
Proof.
  apply (load_accepts_iff_all_valid Examples.three_tasks).
  intros t Hin Hbad. apply validate_task_invalid in Hbad as [msg Hmsg].
  pose proof three_tasks_well_formed as Hwf. rewrite Forall_forall in Hwf.
  destruct (Hwf t Hin) as [Hok _]. congruence.
Defined.

Lemma validate_task_complaint (t : task) :
  invalid t → validate_task t = Raise (ValueError (first_complaint t)).
Proof.
  unfold invalid, validate_task, first_complaint, getitem, get.
  destruct (t !! "run") as [[|r]|]; simpl; try done.
  destruct (default VNone (t !! "git_checkout_target")) as [|g]; simpl;
    try done.
  intros [?|[?|(r' & [= <-] & ->)]]; done.
Qed.

(** The tasks are checked in document order and each task's checks in
    the order run, git_checkout_target, "rm": the error raised is the
    first complaint about the first invalid task, whatever follows it. *)
Theorem validation_reports_first_problem (pre post : list task) (t : task) :
  (∀ t', t' ∈ pre → ¬ invalid t') →
  invalid t →
  load_and_validate_yaml_file {| tasks := pre ++ t :: post |} =
    Raise (ValueError (first_complaint t)).
Proof.
  intros Hpre Hbad. unfold load_and_validate_yaml_file. simpl.
  assert (validate_tasks (pre ++ t :: post) =
          Raise (ValueError (first_complaint t))) as ->; [|done].
  induction pre as [|p pre IH]; simpl.
  - by rewrite validate_task_complaint.
  - destruct (validate_task_cases p) as [->|Hp].
    + apply IH. intros t' Hin. apply Hpre. by right.
    + apply validate_task_invalid in Hp. destruct (Hpre p); [left|done].
Qed.

Lemma validation_reports_first_problem_witness :
  load_and_validate_yaml_file
    {| tasks := tasks Examples.one_task ++
                {[ "run" := VStr "rm -rf runs" ]} :: [∅] |} =
    Raise (ValueError "branch or commit key is required in the yaml task.").
Proof.
  replace "branch or commit key is required in the yaml task."
    with (first_complaint {[ "run" := VStr "rm -rf runs" ]})
    by (by vm_compute).
  apply (validation_reports_first_problem (tasks Examples.one_task) [∅]
           {[ "run" := VStr "rm -rf runs" ]}).
  - intros t' Hin Hbad. apply validate_task_invalid in Hbad as [msg Hmsg].
    apply list_elem_of_singleton in Hin as ->. by vm_compute in Hmsg.
  - right. left. reflexivity.
Defined.

(** ** Edge cases of a turn *)

Ltac absent :=
  repeat (apply not_elem_of_cons; split; [done|]); apply not_elem_of_nil.

Lemma body_never_returns (w : world) (i : nat) :
  (body w i).2 ≠ Ok Return_ ∧ Print_no_more_tasks ∉ (body w i).1.
Proof.
  unfold body, load_and_validate_yaml_file.
  destruct (validate_tasks (tasks (disk w i))) as [[]|e] eqn:Hv;
    [|split; [done | apply not_elem_of_nil]].
  simpl. destruct (tasks (disk w i) !! i) as [t|] eqn:Ht;
    [|split; [done | apply not_elem_of_nil]].
  destruct (decide (t = ∅)) as [->|Hne].
  { rewrite validate_tasks_ok in Hv.
    specialize (Hv ∅ (list_elem_of_lookup_2 _ _ _ Ht)). done. }
  destruct (getitem t "name") as [name|];
    [|split; [done | apply not_elem_of_nil]]. simpl.
  destruct (getitem t "git_checkout_target") as [g|]; simpl;
    [|split; [done | absent]].
  destruct (getitem t "run") as [r|]; simpl; [|split; [done | absent]].
  unfold subprocess_run. simpl.
  destruct (exit_status w i Checkout _ =? 0)%Z; simpl;
    [destruct (exit_status w i Run _ =? 0)%Z; simpl|];
    (split; [done | absent]).
Qed.

(** The guard [if not task] never fires: a task that passed validation
    has a [run] entry, so it is not the empty mapping.  No run ends
    through that [return], and its message is never printed. *)
Theorem no_more_tasks_branch_is_dead (fuel : nat) (w : world) :
  final (start_train_queue fuel w) ≠ No_more_tasks ∧
  Print_no_more_tasks ∉ trace (start_train_queue fuel w).
Proof.
  unfold start_train_queue. simpl.
  assert (∀ i num, final (loop fuel w i num) ≠ No_more_tasks ∧
                   Print_no_more_tasks ∉ trace (loop fuel w i num)) as H.
  { induction fuel as [|fuel IH]; intros i num; simpl.
    - destruct (loop_test i num); simpl; (split; [done | absent]).
    - destruct (loop_test i num); simpl; [|split; [done | absent]].
      destruct (body_never_returns w i) as [Hr Ht].
      destruct (body w i) as [t [[|n]|e]]; simpl in *; [done| |done].
      destruct (IH (S i) (Some n)) as [? ?]. split; [done|].
      rewrite elem_of_app. tauto. }
  destruct (H 0 None) as [? ?]. split; [done|].
  rewrite not_elem_of_cons. done.
Qed.

(** An empty task list is not "nothing to do": the first loop test
    compares against infinity, so the first turn indexes the empty list
    and the runner dies with [IndexError]. *)
Theorem empty_document_raises_index_error (w : world) (fuel : nat) :
  tasks (disk w 0) = [] →
  start_train_queue (S fuel) w =
    {| trace := [Print_starting]; position := 0;
       final := Uncaught IndexError |}.
Proof.
  intros He. unfold start_train_queue. rewrite loop_step by done.
  rewrite body_index_error; [done| |].
  - unfold load_and_validate_yaml_file. by rewrite He.
  - rewrite He. simpl. lia.
Qed.

Lemma empty_document_raises_index_error_witness :
  start_train_queue 1 (Examples.static {| tasks := [] |} Examples.all_succeed) =
    {| trace := [Print_starting]; position := 0;
       final := Uncaught IndexError |}.
Proof.
  apply (empty_document_raises_index_error
           (Examples.static {| tasks := [] |} Examples.all_succeed) 0).
  reflexivity.
Defined.

(** Validation does not ask for [name], but the banner does: a selected
    task without it ends the whole runner with [KeyError] before any
    process is started; the failure is not isolated. *)
Theorem unnamed_task_raises_key_error (w : world) (i fuel : nat)
    (num : option nat) (t : task) :
  loop_test i num = true →
  load_and_validate_yaml_file (disk w i) = Ok (disk w i) →
  tasks (disk w i) !! i = Some t →
  t !! "name" = None →
  loop (S fuel) w i num =
    {| trace := []; position := i; final := Uncaught (KeyError "name") |}.
Proof.
  intros Htest Hload Hsel Hname. rewrite loop_step by done.
  unfold body. rewrite Hload. simpl. rewrite Hsel.
  destruct (decide (t = ∅)) as [->|_].
  - unfold load_and_validate_yaml_file in Hload.
    destruct (validate_tasks (tasks (disk w i))) as [[]|] eqn:Hv; [|done].
    rewrite validate_tasks_ok in Hv.
    specialize (Hv ∅ (list_elem_of_lookup_2 _ _ _ Hsel)). done.
  - unfold getitem. by rewrite Hname.
Qed.

Lemma unnamed_task_raises_key_error_witness :
  loop 1 (Examples.static {| tasks := [Examples.unnamed_task] |}
            Examples.all_succeed) 0 None =
    {| trace := []; position := 0; final := Uncaught (KeyError "name") |}.
Proof.
  apply (unnamed_task_raises_key_error _ 0 0 None Examples.unnamed_task).
  - reflexivity.
  - by vm_compute.
  - reflexivity.
  - by vm_compute.
Defined.

(** The processes of a turn: the checkout always runs; the cache reset
    and the task's own command run exactly when the checkout exited with
    status 0. *)
Theorem run_command_needs_checkout (w : world) (i : nat) (t : task) :
  load_and_validate_yaml_file (disk w i) = Ok (disk w i) →
  tasks (disk w i) !! i = Some t →
  well_formed t →
  let c := checkout_cmd (py_str (get t "git_checkout_target")) in
  let r := py_str (get t "run") in
  commands (body w i).1 =
    (if (exit_status w i Checkout c =? 0)%Z then [c; r] else [c]) ∧
  (Reset_cuda ∈ (body w i).1 ↔ exit_status w i Checkout c = 0%Z).
Proof.
  intros Hload Hsel Hwf c r. rewrite (body_runs w i t Hload Hsel Hwf).
  unfold outcome_events. fold c r. simpl.
  destruct (exit_status w i Checkout c =? 0)%Z eqn:Hc.
  - apply Z.eqb_eq in Hc.
    destruct (exit_status w i Run r =? 0)%Z; simpl; (split; [done|]);
      rewrite !elem_of_cons; naive_solver.
  - apply Z.eqb_neq in Hc. simpl. split; [done|].
    rewrite !elem_of_cons, elem_of_nil.
    split; [intros [?|[?|[?|[?|[]]]]]; done | done].
Qed.

Lemma run_command_needs_checkout_witness :
  let w := Examples.static Examples.three_tasks
             Examples.second_checkout_fails in
  commands (body w 1).1 = ["git checkout wide-net && git pull"] ∧
  (Reset_cuda ∈ (body w 1).1 ↔
   Examples.second_checkout_fails 1 Checkout
     "git checkout wide-net && git pull" = 0%Z).
Proof.
  intros w.
  apply (run_command_needs_checkout w 1
           (Examples.mk_task "wide" "python train.py --run_id wide" "wide-net")).
  - by vm_compute.
  - reflexivity.
  - split; [by vm_compute | by eexists].
Defined.

(** ** Edits between reloads *)

Lemma shrink_raises_witness :
  loop 1 (Examples.edited Examples.three_tasks Examples.one_task
            Examples.all_succeed) 1 (Some 3) =
    {| trace := []; position := 1; final := Uncaught IndexError |}.
Proof.
  apply (shrink_raises
           (Examples.edited Examples.three_tasks Examples.one_task
              Examples.all_succeed) 1 3 0).
  - lia.
  - simpl. apply Forall_cons_2; [|apply Forall_nil_2].
    split; [by vm_compute | by eexists].
  - simpl. lia.
Defined.

(** The run up to the last reload: the first [length d] reloads return
    [d]; what the file holds afterwards is never read. *)
Lemma run_to_last_reload (w : world) (d : queue) (fuel : nat) :
  (∀ j, j < length (tasks d) → disk w j = d) →
  Forall well_formed (tasks d) →
  0 < length (tasks d) ≤ fuel →
  ∃ t, start_train_queue fuel w =
         {| trace := Print_starting :: t ++ [Print_all_done];
            position := length (tasks d); final := All_done |} ∧
       attempted t = seq 0 (length (tasks d)) ∧
       failures t = filter (λ j, fails w d j) (seq 0 (length (tasks d))) ∧
       successes t =
         filter (λ j, negb (fails w d j)) (seq 0 (length (tasks d))).
Proof.
  intros Hd Hwf [Hpos Hfuel].
  destruct (length (tasks d)) as [|k] eqn:Hlen; [lia|].
  destruct (loop_prefix w d k Hwf 0 (fuel - S k) None)
    as (t & Hl & Ha & Hf & Hs); [intros j ?; apply Hd; lia | lia | done |].
  replace (S k + (fuel - S k)) with fuel in Hl by lia.
  exists t. unfold start_train_queue.
  rewrite Hl, Hlen, loop_exit by lia. done.
Qed.

(** A task appended to the file while the last task is running is never
    executed: the length is taken from the document as it was reloaded at
    the start of the turn, and the runner reports completion. *)
Theorem edits_after_last_reload_are_ignored (w : world) (d : queue)
    (fuel : nat) :
  (∀ j, j < length (tasks d) → disk w j = d) →
  Forall well_formed (tasks d) →
  0 < length (tasks d) ≤ fuel →
  final (start_train_queue fuel w) = All_done ∧
  position (start_train_queue fuel w) = length (tasks d) ∧
  attempted (trace (start_train_queue fuel w)) = seq 0 (length (tasks d)).
Proof.
  intros Hd Hwf Hlen.
  destruct (run_to_last_reload w d fuel Hd Hwf Hlen) as (t & -> & Ha & _).
  simpl. unfold attempted in *. rewrite omap_app, Ha. simpl.
  by rewrite app_nil_r.
Qed.

Lemma edits_after_last_reload_are_ignored_witness :
  let w := Examples.edited Examples.one_task Examples.four_tasks
             Examples.all_succeed in
  final (start_train_queue 5 w) = All_done ∧
  position (start_train_queue 5 w) = 1 ∧
  attempted (trace (start_train_queue 5 w)) = seq 0 1.
Proof.
  intros w.
  apply (edits_after_last_reload_are_ignored w Examples.one_task 5).
  - intros j Hj. simpl in Hj. destruct j; [reflexivity | lia].
  - simpl. apply Forall_cons_2; [|apply Forall_nil_2].
    split; [by vm_compute | by eexists].
  - simpl. lia.
Defined.

(** The closing message "All tasks executed successfully." does not
    depend on any task having succeeded: over a document that is not
    edited, with every process exiting non-zero, all tasks are reported
    as failed, none as successful, and the message is still the last
    thing printed. *)
Theorem all_done_message_despite_failures (w : world) (d : queue)
    (fuel : nat) :
  (∀ j, j < length (tasks d) → disk w j = d) →
  Forall well_formed (tasks d) →
  0 < length (tasks d) ≤ fuel →
  (∀ i ph c, exit_status w i ph c ≠ 0%Z) →
  let r := start_train_queue fuel w in
  final r = All_done ∧
  last (trace r) = Some Print_all_done ∧
  failures (trace r) = seq 0 (length (tasks d)) ∧
  successes (trace r) = [].
Proof.
  intros Hd Hwf Hlen Hexit r. subst r.
  destruct (run_to_last_reload w d fuel Hd Hwf Hlen)
    as (t & -> & _ & Hf & Hs).
  cbn [trace final]. split; [done|]. split.
  { change (Print_starting :: t ++ [Print_all_done])
      with ((Print_starting :: t) ++ [Print_all_done]).
    apply last_snoc. }
  assert (∀ n i, i + n ≤ length (tasks d) →
            filter (λ j, fails w d j) (seq i n) = seq i n ∧
            filter (λ j, negb (fails w d j)) (seq i n) = []) as Hall.
  { induction n as [|n IH]; intros i Hi; [done|].
    rewrite !filter_seq_cons.
    destruct (IH (S i)) as [-> ->]; [lia|].
    assert (fails w d i = true) as ->; [|done].
    unfold fails. destruct (lookup_lt_is_Some_2 (tasks d) i) as [t' ->];
      [lia|].
    apply orb_true_iff. left. apply negb_true_iff, Z.eqb_neq, Hexit. }
  destruct (Hall (length (tasks d)) 0) as [Hf' Hs']; [lia|].
  unfold failures, successes in *. simpl.
  rewrite !omap_app, Hf, Hs, Hf', Hs'. simpl. by rewrite app_nil_r.
Qed.

Lemma all_done_message_despite_failures_witness :
  let r := start_train_queue 3
             (Examples.static Examples.three_tasks Examples.all_fail) in
  final r = All_done ∧
  last (trace r) = Some Print_all_done ∧
  failures (trace r) = seq 0 3 ∧
  successes (trace r) = [].
Proof.
  apply (all_done_message_despite_failures
           (Examples.static Examples.three_tasks Examples.all_fail)
           Examples.three_tasks 3).
  - done.
  - apply three_tasks_well_formed.
  - simpl. lia.
  - done.
Defined.

Lemma loop_one_served (w : world) (d : queue) (i fuel : nat)
    (num : option nat) :
  Forall well_formed (tasks d) →
  disk w i = d →
  i < length (tasks d) →
  loop_test i num = true →
  ∃ t, loop (S fuel) w i num =
         prepend t (loop fuel w (S i) (Some (length (tasks d)))) ∧
       attempted t = [i] ∧
       banners t = [banner_of d i] ∧
       plans t = [plan_of d i].
Proof.
  intros Hwf Hd Hlt Htest.
  destruct (lookup_lt_is_Some_2 _ _ Hlt) as [t Ht].
  assert (well_formed t) as Hwt by (by eapply Forall_lookup_1).
  rewrite (loop_step _ _ _ _ Htest).
  rewrite (body_runs w i t); rewrite ?Hd; auto using load_well_formed.
  eexists. split; [reflexivity|].
  rewrite attempted_outcome. unfold banner_of, plan_of. rewrite Ht.
  unfold outcome_events. simpl.
  destruct (exit_status w i Checkout _ =? 0)%Z; [|done].
  by destruct (exit_status w i Run _ =? 0)%Z.
Qed.

Lemma loop_prefix_served (w : world) (d : queue) (k : nat) :
  Forall well_formed (tasks d) →
  ∀ (i fuel : nat) (num : option nat),
    (∀ j, i ≤ j ≤ i + k → disk w j = d) →
    i + k < length (tasks d) →
    loop_test i num = true →
    ∃ t, loop (S k + fuel) w i num =
           prepend t (loop fuel w (S (i + k)) (Some (length (tasks d)))) ∧
         attempted t = seq i (S k) ∧
         banners t = banner_of d <$> seq i (S k) ∧
         plans t = plan_of d <$> seq i (S k).
Proof.
  intros Hwf. induction k as [|k IH]; intros i fuel num Hd Hlt Htest.
  - rewrite Nat.add_0_r in *.
    assert (disk w i = d) as Hdi by (apply Hd; lia).
    destruct (loop_one_served w d i fuel num Hwf Hdi Hlt Htest)
      as (t & Hl & Ha & Hb & Hp).
    exists t. change (1 + fuel) with (S fuel). by rewrite Hl, Ha, Hb, Hp.
  - assert (disk w i = d) as Hdi by (apply Hd; lia).
    assert (i < length (tasks d)) as Hi by lia.
    destruct (loop_one_served w d i (S k + fuel) num Hwf Hdi Hi Htest)
      as (t & Hl & Ha & Hb & Hp).
    destruct (IH (S i) fuel (Some (length (tasks d))))
      as (t' & Hl' & Ha' & Hb' & Hp').
    { intros j Hj. apply Hd. lia. }
    { lia. }
    { simpl. apply Nat.ltb_lt. lia. }
    exists (t ++ t').
    change (S (S k) + fuel) with (S (S k + fuel)).
    rewrite Hl, Hl', prepend_prepend.
    replace (S (S i + k)) with (S (i + S k)) by lia.
    split; [done|].
    unfold attempted, banners, plans in *.
    rewrite !omap_app, Ha, Hb, Hp, Ha', Hb', Hp'. done.
Qed.

(** An edit seen by the reload of turn [p] is followed from there on:
    the tasks at positions below [p] were taken from the old document,
    those at positions [p] and later are taken from the new one (their
    names, checkout targets and commands are the new document's), and
    the runner stops at the new length, be it larger or smaller than the
    old one, as long as it is still above the counter. *)
Theorem edited_document_runs_to_new_length (w : world) (d d' : queue)
    (p fuel : nat) :
  0 < p < length (tasks d) →
  p < length (tasks d') ≤ fuel →
  (∀ j, j < p → disk w j = d) →
  (∀ j, p ≤ j < length (tasks d') → disk w j = d') →
  Forall well_formed (tasks d) →
  Forall well_formed (tasks d') →
  final (start_train_queue fuel w) = All_done ∧
  position (start_train_queue fuel w) = length (tasks d') ∧
  attempted (trace (start_train_queue fuel w)) = seq 0 (length (tasks d')) ∧
  banners (trace (start_train_queue fuel w)) =
    (banner_of d <$> seq 0 p) ++
    (banner_of d' <$> seq p (length (tasks d') - p)) ∧
  plans (trace (start_train_queue fuel w)) =
    (plan_of d <$> seq 0 p) ++
    (plan_of d' <$> seq p (length (tasks d') - p)).
Proof.
  intros [Hp Hpd] [Hpd' Hfuel] Hd Hd' Hwf Hwf'.
  destruct p as [|k]; [lia|].
  destruct (loop_prefix_served w d k Hwf 0 (fuel - S k) None)
    as (t1 & Hl1 & Ha1 & Hb1 & Hq1);
    [intros j ?; apply Hd; lia | lia | done |].
  replace (S k + (fuel - S k)) with fuel in Hl1 by lia.
  change (S (0 + k)) with (S k) in Hl1.
  destruct (loop_prefix_served w d' (length (tasks d') - S (S k)) Hwf' (S k)
              (fuel - length (tasks d')) (Some (length (tasks d))))
    as (t2 & Hl2 & Ha2 & Hb2 & Hq2);
    [intros j ?; apply Hd'; lia | lia | by apply Nat.ltb_lt |].
  replace (S (length (tasks d') - S (S k)) + (fuel - length (tasks d')))
    with (fuel - S k) in Hl2 by lia.
  replace (S (S k + (length (tasks d') - S (S k))))
    with (length (tasks d')) in Hl2 by lia.
  replace (S (length (tasks d') - S (S k)))
    with (length (tasks d') - S k) in Ha2, Hb2, Hq2 by lia.
  unfold start_train_queue. rewrite Hl1, Hl2, loop_exit by lia. simpl.
  split; [done|]. split; [done|].
  unfold attempted, banners, plans in *.
  rewrite !omap_app, Ha1, Ha2, Hb1, Hb2, Hq1, Hq2. simpl.
  rewrite !app_nil_r. split; [|done].
  replace (length (tasks d'))
    with (S k + (length (tasks d') - S k)) at 2 by lia.
  by rewrite seq_app.
Qed.

Lemma edited_document_runs_to_new_length_witness :
  let w := Examples.edited Examples.three_tasks Examples.four_tasks
             Examples.all_succeed in
  final (start_train_queue 4 w) = All_done ∧
  position (start_train_queue 4 w) = 4 ∧
  attempted (trace (start_train_queue 4 w)) = seq 0 4 ∧
  banners (trace (start_train_queue 4 w)) =
    (banner_of Examples.three_tasks <$> seq 0 1) ++
    (banner_of Examples.four_tasks <$> seq 1 (4 - 1)) ∧
  plans (trace (start_train_queue 4 w)) =
    (plan_of Examples.three_tasks <$> seq 0 1) ++
    (plan_of Examples.four_tasks <$> seq 1 (4 - 1)).
Proof.
  intros w.
  apply (edited_document_runs_to_new_length w Examples.three_tasks
           Examples.four_tasks 1 4).
  - simpl. lia.
  - simpl. lia.
  - intros j Hj. destruct j; [reflexivity | lia].
  - intros j Hj. destruct j; [lia | reflexivity].
  - apply three_tasks_well_formed.
  - simpl. repeat (apply Forall_cons_2; [split; [by vm_compute | by eexists]|]).
    apply Forall_nil_2.
Defined.

(** ** Which fields matter *)

Lemma validate_task_same_fields (t t' : task) :
  same_fields t t' → validate_task t = validate_task t'.
Proof.
  intros (_ & Hr & Hg). unfold validate_task, get, getitem.
  by rewrite Hr, Hg.
Qed.

Lemma validate_tasks_same_fields (ts ts' : list task) :
  Forall2 same_fields ts ts' → validate_tasks ts = validate_tasks ts'.
Proof.
  induction 1 as [|t t' ts ts' Ht _ IH]; simpl; [done|].
  rewrite (validate_task_same_fields t t' Ht), IH. done.
Qed.

Lemma validated_not_empty (ts : list task) (i : nat) (t : task) :
  validate_tasks ts = Ok tt → ts !! i = Some t → t ≠ ∅.
Proof.
  intros Hv Hsel ->. rewrite validate_tasks_ok in Hv.
  specialize (Hv ∅ (list_elem_of_lookup_2 _ _ _ Hsel)). done.
Qed.

Lemma body_same_fields (w w' : world) (i : nat) :
  Forall2 same_fields (tasks (disk w i)) (tasks (disk w' i)) →
  (∀ ph c, exit_status w i ph c = exit_status w' i ph c) →
  body w i = body w' i.
Proof.
  intros Hsame Hexit. unfold body, load_and_validate_yaml_file.
  rewrite <- (validate_tasks_same_fields _ _ Hsame).
  destruct (validate_tasks (tasks (disk w i))) as [[]|e] eqn:Hv; [|done].
  simpl. rewrite <- (Forall2_length _ _ _ Hsame).
  destruct (tasks (disk w i) !! i) as [t|] eqn:Ht.
  - destruct (Forall2_lookup_l _ _ _ _ _ Hsame Ht) as (t' & Ht' & Hf).
    rewrite Ht'. pose proof (validated_not_empty _ _ _ Hv Ht) as Hne.
    rewrite (validate_tasks_same_fields _ _ Hsame) in Hv.
    pose proof (validated_not_empty _ _ _ Hv Ht') as Hne'.
    rewrite !decide_False by done.
    destruct Hf as (Hn & Hr & Hg). unfold getitem, subprocess_run.
    rewrite Hn, Hr, Hg.
    destruct (t' !! "name"); [|done].
    destruct (t' !! "git_checkout_target"); [|done].
    destruct (t' !! "run"); [|done].
    simpl. by rewrite !Hexit.
  - destruct (tasks (disk w' i) !! i) as [t'|] eqn:Ht'; [|done].
    destruct (Forall2_lookup_r _ _ _ _ _ Hsame Ht') as (t & Ht2 & _).
    congruence.
Qed.

(** Of each task the runner reads [name], [run] and
    [git_checkout_target] and nothing else: two executions whose
    documents agree on these three keys, task by task, and whose
    processes exit alike are indistinguishable.  In particular the
    [index] entry of a task has no effect on order or selection. *)
Theorem only_three_fields_are_read (w w' : world) (fuel : nat) :
  (∀ i, Forall2 same_fields (tasks (disk w i)) (tasks (disk w' i))) →
  (∀ i ph c, exit_status w i ph c = exit_status w' i ph c) →
  start_train_queue fuel w = start_train_queue fuel w'.
Proof.
  intros Hsame Hexit. unfold start_train_queue. f_equal.
  generalize 0. generalize (@None nat).
  induction fuel as [|fuel IH]; intros num i; simpl; [done|].
  rewrite (body_same_fields w w' i (Hsame i) (Hexit i)).
  destruct (loop_test i num); [|done].
  destruct (body w' i) as [t [[|n]|e]]; try done. by rewrite IH.
Qed.

Lemma only_three_fields_are_read_witness :
  start_train_queue 3
    (Examples.static Examples.three_tasks Examples.second_checkout_fails) =
  start_train_queue 3
    (Examples.static Examples.three_tasks_indexed
       Examples.second_checkout_fails).
Proof.
  apply (only_three_fields_are_read
           (Examples.static Examples.three_tasks Examples.second_checkout_fails)
           (Examples.static Examples.three_tasks_indexed
              Examples.second_checkout_fails) 3).
  - intros i. simpl.
    repeat (apply Forall2_cons_2; [by vm_compute|]). apply Forall2_nil_2.
  - done.
Defined.

End QueueMore.

(** * Further properties of the train/eval loop *)

Section TrainerMore.
Import Trainer.

#[local] Arguments train_step : simpl never.
#[local] Arguments test_step : simpl never.

(** ** The diagnostic printout *)

Lemma log_calls_app (t t' : list event) :
  log_calls (t ++ t') = (log_calls t + log_calls t')%nat.
Proof. induction t as [|[] t IH]; simpl; auto. Qed.

Lemma optimizer_steps_app (t t' : list event) :
  optimizer_steps (t ++ t') = (optimizer_steps t + optimizer_steps t')%nat.
Proof. induction t as [|[] t IH]; simpl; auto. Qed.

Ltac tally :=
  repeat (cbn; rewrite ?optimizer_steps_app, ?log_calls_app, ?logged_app).

Ltac observe :=
  repeat (cbn; rewrite ?training_passes_app, ?evaluation_passes_app,
            ?points_app, ?checkpoints_app, ?logged_app, ?scheduler_steps_app).

Lemma log_gradients_prints_only (ps : list param) :
  log_calls (log_gradients ps).1 = 0%nat ∧
  optimizer_steps (log_gradients ps).1 = 0%nat.
Proof.
  induction ps as [|p ps [IH1 IH2]]; [done|]. cbn [log_gradients].
  destruct (p_grad p) as [g|]; [|done].
  unfold lift, true_div. destruct (Qeq_bool (p_weight p) 0); [done|].
  cbn. destruct (log_gradients ps) as [t r]. by cbn in *.
Qed.

(** A parameter that has a gradient but a zero mean weight (a bias that
    is still all zeros, say) makes [log_gradients] divide by zero: the
    training pass ends with [ZeroDivisionError] right after the update of
    its first batch, before any metric could be logged. *)
Theorem zero_weight_parameter_aborts_pass (b : batch) (bs : list batch)
    (log_interval epoch : Z) :
  ¬ gradients_ok (b_params b) →
  ∃ t, train_step (b :: bs) log_interval epoch
         = (t, Raise ZeroDivisionError) ∧
       optimizer_steps t = 1%nat ∧ log_calls t = 0%nat.
Proof.
  intros Hno. pose proof (log_gradients_zero_weight _ Hno) as Hr.
  destruct (log_gradients_prints_only (b_params b)) as [Hl Ho].
  unfold train_step. cbn [train_batches].
  destruct (log_gradients (b_params b)) as [tg r]. cbn in *. subst r.
  eexists. split; [reflexivity|]. cbn. by rewrite Ho, Hl.
Qed.

Lemma zero_weight_parameter_aborts_pass_witness :
  ∃ t, train_step (Examples.zero_bias_batch :: Examples.two_batches) 1 0
         = (t, Raise ZeroDivisionError) ∧
       optimizer_steps t = 1%nat ∧ log_calls t = 0%nat.
Proof.
  apply (zero_weight_parameter_aborts_pass Examples.zero_bias_batch
           Examples.two_batches 1 0).
  intros H. simpl in H.
  apply Forall_cons_1 in H as [_ H]. apply Forall_cons_1 in H as [[H|H] _];
    by vm_compute in H.
Defined.

(** ** The batch loop and its flushes *)

Lemma flushes_at_due (i : nat) (log_interval : Z) :
  log_interval ≠ 0 →
  flush_due i log_interval = Ok (flushes_at log_interval i).
Proof. intros H. by rewrite flush_due_ok. Qed.

(** Batch 0 never flushes, and the test [batch % log_interval] is not
    even evaluated for it: when the printout does not fail, a loader of a
    single batch completes for every [log_interval], zero included, and
    logs nothing; with two or more batches a [log_interval] of zero
    raises [ZeroDivisionError] after the second batch has been trained
    on, before any metric is logged. *)
Theorem log_interval_zero (b b' : batch) (bs : list batch)
    (log_interval epoch : Z) :
  gradients_ok (b_params b) →
  gradients_ok (b_params b') →
  (∃ t, train_step [b] log_interval epoch = (t, Ok tt) ∧
        optimizer_steps t = 1%nat ∧ log_calls t = 0%nat) ∧
  (∃ t, train_step (b :: b' :: bs) 0 epoch = (t, Raise ZeroDivisionError) ∧
        optimizer_steps t = 2%nat ∧ log_calls t = 0%nat).
Proof.
  intros Hb Hb'.
  destruct (log_gradients_ok _ Hb) as [tg Hg].
  destruct (log_gradients_ok _ Hb') as [tg' Hg'].
  destruct (log_gradients_prints_only (b_params b)) as [Hl Ho].
  destruct (log_gradients_prints_only (b_params b')) as [Hl' Ho'].
  rewrite Hg in Hl, Ho. rewrite Hg' in Hl', Ho'. cbn in Hl, Ho, Hl', Ho'.
  unfold train_step. cbn [train_batches]. rewrite Hg, Hg'. split.
  - eexists. split; [reflexivity|]. tally. by rewrite Ho, Hl.
  - eexists. split; [reflexivity|]. tally. by rewrite Ho, Hl, Ho', Hl'.
Qed.

Lemma one_sample_gradients_ok (l : Q) :
  gradients_ok (b_params (Examples.one_sample l)).
Proof. apply one_sample_trainable. Qed.

Lemma log_interval_zero_witness :
  (∃ t, train_step [Examples.one_sample 1] 0 0 = (t, Ok tt) ∧
        optimizer_steps t = 1%nat ∧ log_calls t = 0%nat) ∧
  (∃ t, train_step (Examples.one_sample 1 :: Examples.one_sample 3 :: []) 0 0
          = (t, Raise ZeroDivisionError) ∧
        optimizer_steps t = 2%nat ∧ log_calls t = 0%nat).
Proof.
  apply (log_interval_zero (Examples.one_sample 1) (Examples.one_sample 3)
           [] 0 0); apply one_sample_gradients_ok.
Defined.

Lemma short_batches_no_flush (bs : list batch) (log_interval epoch : Z) :
  Forall (λ b, gradients_ok (b_params b)) bs →
  ∀ (i n : nat) (l : locals),
    (i + length bs ≤ Z.to_nat log_interval)%nat → 0 < log_interval →
    ∃ t l', train_batches bs i n log_interval epoch l = (t, Ok l') ∧
            log_calls t = 0%nat.
Proof.
  induction 1 as [|b bs Hb _ IH]; intros i n l Hlen Hli.
  - by exists [], l.
  - simpl in Hlen. cbn [train_batches]. unfold lift.
    destruct (log_gradients_ok _ Hb) as [tg Hg].
    destruct (log_gradients_prints_only (b_params b)) as [Hl _].
    rewrite Hg in Hl |- *. cbn in Hl.
    rewrite flush_due_ok by lia.
    assert (negb (i =? 0)%nat && (Z.of_nat i mod log_interval =? 0) = false)
      as ->.
    { destruct (i =? 0)%nat eqn:Hi; [done|]. apply Nat.eqb_neq in Hi.
      simpl. apply Z.eqb_neq. rewrite Z.mod_small by lia. lia. }
    destruct (IH (S i) n (accumulate l b)) as (t & l' & Ht & Hc); [lia..|].
    eexists _, l'. cbn. rewrite Ht. cbn. split; [reflexivity|].
    tally. by rewrite Hl, Hc.
Qed.

(** A loader with at most [log_interval] batches whose printouts do not
    fail produces no training metric point at all, and so completes
    whatever the sample counts of its batches: the first flush would
    come after batch [log_interval], which such a loader does not
    have. *)
Theorem short_loader_logs_no_training_metrics (dataloader : list batch)
    (log_interval epoch : Z) :
  0 < log_interval →
  Z.of_nat (length dataloader) ≤ log_interval →
  Forall (λ b, gradients_ok (b_params b)) dataloader →
  ∃ t, train_step dataloader log_interval epoch = (t, Ok tt) ∧
       log_calls t = 0%nat.
Proof.
  intros Hli Hlen Hg. unfold train_step.
  destruct (short_batches_no_flush dataloader log_interval epoch Hg 0
              (length dataloader) init) as (t & l' & Ht & Hc); [lia..|].
  rewrite Ht. eexists. split; [reflexivity|]. cbn.
  by rewrite log_calls_app, Hc.
Qed.

Lemma short_loader_logs_no_training_metrics_witness :
  ∃ t, train_step [Examples.no_sample; Examples.no_sample] 10 0 = (t, Ok tt) ∧
       log_calls t = 0%nat.
Proof.
  apply (short_loader_logs_no_training_metrics
           [Examples.no_sample; Examples.no_sample] 10 0).
  - lia.
  - simpl. lia.
  - repeat (apply Forall_cons_2; [apply (one_sample_gradients_ok 0)|]).
    apply Forall_nil_2.
Defined.

Lemma train_batches_losses (bs : list batch) :
  Forall trainable bs →
  ∀ (i n : nat) (log_interval epoch : Z) (l : locals),
    log_interval ≠ 0 → n ≠ 0%nat → 0 ≤ num_predictions l →
    ∃ t l', train_batches bs i n log_interval epoch l = (t, Ok l') ∧
            logged "train/loss" t =
              (λ jb, b_loss jb.2) <$>
                filter (λ jb, flushes_at log_interval jb.1)
                  (zip (seq i (length bs)) bs) ∧
            log_calls t = length (logged "train/loss" t).
Proof.
  induction 1 as [|b bs [Hb Hg] _ IH]; intros i n li epoch l Hli Hn Hl.
  - by exists [], l.
  - assert (0 < num_predictions (accumulate l b)) as Hacc.
    { rewrite accumulate_predictions. lia. }
    destruct (log_gradients_ok _ Hg) as [tg Htg].
    destruct (log_gradients_prints_only (b_params b)) as [Hlg _].
    destruct (log_gradients_inert (b_params b)) as (_ & _ & _ & _ & _ & _).
    assert (logged "train/loss" tg = []) as Hng.
    { clear -Htg. revert tg Htg.
      induction (b_params b) as [|p ps IHp]; intros tg Htg.
      - by injection Htg as <-.
      - cbn [log_gradients] in Htg. destruct (p_grad p) as [g|]; [|eauto].
        unfold lift, true_div in Htg.
        destruct (Qeq_bool (p_weight p) 0); [done|]. cbn in Htg.
        destruct (log_gradients ps) as [t' [[]|x]]; [|done].
        injection Htg as <-. cbn. by apply IHp. }
    rewrite Htg in Hlg. cbn in Hlg.
    cbn [train_batches length seq zip zip_with]. unfold lift.
    rewrite Htg, (flushes_at_due i li Hli), filter_cons. cbn [fst snd].
    destruct (flushes_at li i) eqn:Hf.
    + rewrite decide_True by done.
      destruct (IH (S i) n li epoch (flushed (accumulate l b)) Hli Hn)
        as (t & l' & Ht & Hp & Hc); [done|].
      rewrite flush_ok by lia.
      eexists _, l'. cbn. rewrite Ht. cbn. split; [reflexivity|].
      tally. rewrite Hng, Hlg, Hc, Hp. simpl. done.
    + rewrite decide_False
        by (exact id).
      destruct (IH (S i) n li epoch (accumulate l b) Hli Hn)
        as (t & l' & Ht & Hp & Hc); [lia|].
      eexists _, l'. cbn. rewrite Ht. cbn. split; [reflexivity|].
      tally. rewrite Hng, Hlg, Hc, Hp. simpl. done.
Qed.

(** A training pass over trainable batches logs exactly one metric point
    after every batch whose index is a non-zero multiple of
    [log_interval]; the loss in that point is the loss of that very
    batch, and what the batches after the last such index contribute is
    never logged. *)
Theorem train_metric_points (dataloader : list batch)
    (log_interval epoch : Z) :
  Forall trainable dataloader →
  log_interval ≠ 0 →
  ∃ t, train_step dataloader log_interval epoch = (t, Ok tt) ∧
       logged "train/loss" t =
         (λ jb, b_loss jb.2) <$>
           filter (λ jb, flushes_at log_interval jb.1)
             (zip (seq 0 (length dataloader)) dataloader) ∧
       log_calls t = length (logged "train/loss" t).
Proof.
  intros Hdl Hli. unfold train_step. destruct dataloader as [|b bs].
  - eexists. split; [reflexivity|]. done.
  - destruct (train_batches_losses (b :: bs) Hdl 0 (length (b :: bs))
                log_interval epoch init Hli)
      as (t & l' & Ht & Hp & Hc); [done..|].
    rewrite Ht. eexists. split; [reflexivity|]. cbn [fst].
    change (logged "train/loss" ([Model_train] ++ t ++ []))
      with (logged "train/loss" (t ++ [])).
    change (log_calls ([Model_train] ++ t ++ []))
      with (log_calls (t ++ [])).
    by rewrite app_nil_r.
Qed.

Lemma train_metric_points_witness :
  ∃ t, train_step Examples.two_batches 1 0 = (t, Ok tt) ∧
       logged "train/loss" t =
         (λ jb, b_loss jb.2) <$>
           filter (λ jb, flushes_at 1 jb.1)
             (zip (seq 0 (length Examples.two_batches)) Examples.two_batches) ∧
       log_calls t = length (logged "train/loss" t).
Proof.
  apply (train_metric_points Examples.two_batches 1 0).
  - repeat (apply Forall_cons_2; [apply one_sample_trainable|]).
    apply Forall_nil_2.
  - lia.
Defined.

(** ** What the evaluation pass reports *)

Lemma foldl_accumulate_running_loss (dl : list batch) (l : locals) :
  running_loss (foldl accumulate l dl) =
    foldl (λ acc b, (acc + b_loss b)%Q) (running_loss l) dl.
Proof. revert l. induction dl as [|b dl IH]; intros l; simpl; [done|]. by rewrite IH. Qed.

Lemma foldl_accumulate_total (dl : list batch) (l : locals) :
  num_correct (foldl accumulate l dl) =
    foldl (λ acc b, acc + b_num_correct b) (num_correct l) dl ∧
  num_incorrect_localization (foldl accumulate l dl) =
    foldl (λ acc b, acc + b_num_incorrect_localization b)
      (num_incorrect_localization l) dl ∧
  num_incorrect_other (foldl accumulate l dl) =
    foldl (λ acc b, acc + b_num_incorrect_other b)
      (num_incorrect_other l) dl ∧
  num_incorrect_background (foldl accumulate l dl) =
    foldl (λ acc b, acc + b_num_incorrect_background b)
      (num_incorrect_background l) dl ∧
  num_predictions (foldl accumulate l dl) =
    foldl (λ acc b, acc + Z.of_nat (b_len b)) (num_predictions l) dl.
Proof.
  revert l. induction dl as [|b dl IH]; intros l; simpl; [done|].
  destruct (IH (accumulate l b)) as (-> & -> & -> & -> & ->). done.
Qed.

(** An evaluation pass over a non-empty loader with at least one sample
    logs a single point, at the epoch it was given: the loss is the sum
    of the batch losses divided by the number of batches (a mean per
    batch, not per sample), each ratio is a count summed over the pass
    divided by the number of samples of the pass. *)
Theorem test_step_reports_means (dataloader : list batch) (epoch : Z) :
  dataloader ≠ [] →
  total (λ b, Z.of_nat (b_len b)) dataloader ≠ 0 →
  test_step dataloader epoch =
    ([Model_eval; Log_metrics (val_point dataloader) (inject_Z epoch)],
     Ok tt).
Proof.
  intros Hne Hs. unfold test_step, report, lift, val_point.
  destruct (foldl_accumulate_total dataloader init)
    as (-> & -> & -> & -> & ->).
  rewrite foldl_accumulate_running_loss. fold (total_loss dataloader).
  change (num_correct init) with 0.
  change (num_incorrect_localization init) with 0.
  change (num_incorrect_other init) with 0.
  change (num_incorrect_background init) with 0.
  change (num_predictions init) with 0.
  fold (total b_num_correct dataloader).
  fold (total b_num_incorrect_localization dataloader).
  fold (total b_num_incorrect_other dataloader).
  fold (total b_num_incorrect_background dataloader).
  fold (total (λ b, Z.of_nat (b_len b)) dataloader).
  rewrite !true_div_ok; [reflexivity|..]; try done.
  destruct dataloader; [done|]. simpl. lia.
Qed.

Lemma test_step_reports_means_witness :
  test_step Examples.two_batches 1 =
    ([Model_eval; Log_metrics (val_point Examples.two_batches) (inject_Z 1)],
     Ok tt).
Proof.
  apply (test_step_reports_means Examples.two_batches 1).
  - done.
  - by vm_compute.
Defined.

(** ** Learning rate and scheduler *)

(** In a run that completes, the scheduler steps once per epoch, after
    the rate was logged: the value logged at position [e + 1] is the rate
    epoch [e] was trained with, the first two points carry the same
    initial rate, and the rate reached by the last scheduler step is not
    logged. *)
Theorem lr_is_logged_before_the_scheduler_steps (bk : backend)
    (epoch_start epoch_end checkpoint_interval log_interval : Z) :
  completes bk epoch_start epoch_end checkpoint_interval log_interval →
  let n := Z.to_nat (epoch_end - epoch_start) in
  ∃ t, train bk epoch_start epoch_end checkpoint_interval log_interval
         = (t, Ok tt) ∧
       logged "learning_rate" t = lr bk 0%nat :: (lr bk <$> seq 0 n) ∧
       scheduler_steps t = n.
Proof.
  intros [Hk Hp] n.
  destruct (epochs_complete bk log_interval checkpoint_interval epoch_end
              n epoch_start 0) as (t & Ht & _ & _ & _ & _ & Hl & Hs).
  { intros Hn. apply Hk. lia. }
  { intros e He. apply Hp. lia. }
  unfold train. fold n. rewrite Ht. eexists. split; [reflexivity|].
  cbn. by rewrite Hl, Hs.
Qed.

Lemma lr_is_logged_before_the_scheduler_steps_witness :
  ∃ t, train Examples.halving 0 3 1 1 = (t, Ok tt) ∧
       logged "learning_rate" t =
         Trainer.lr Examples.halving 0%nat ::
           (Trainer.lr Examples.halving <$> seq 0 (Z.to_nat (3 - 0))) ∧
       scheduler_steps t = Z.to_nat (3 - 0).
Proof.
  apply (lr_is_logged_before_the_scheduler_steps Examples.halving 0 3 1 1).
  split; [done|]. intros e _. split; by vm_compute.
Defined.

(** ** Edge cases of the epoch loop *)

(** An empty or reversed epoch range runs no pass: the call logs the
    initial learning rate at [epoch_start] and returns, whatever the
    loaders hold and even with a zero interval. *)
Theorem empty_epoch_range (bk : backend)
    (epoch_start epoch_end checkpoint_interval log_interval : Z) :
  epoch_end ≤ epoch_start →
  train bk epoch_start epoch_end checkpoint_interval log_interval =
    ([Log_metrics [("learning_rate", lr bk 0%nat)] (inject_Z epoch_start)],
     Ok tt).
Proof.
  intros Hle. unfold train.
  replace (Z.to_nat (epoch_end - epoch_start)) with 0%nat by lia.
  reflexivity.
Qed.

Lemma empty_epoch_range_witness :
  train Examples.no_validation 5 3 0 0 =
    ([Log_metrics [("learning_rate", Trainer.lr Examples.no_validation 0%nat)]
        (inject_Z 5)], Ok tt).
Proof. apply (empty_epoch_range Examples.no_validation 5 3 0 0). lia. Defined.

(** With [checkpoint_interval = 0], if the two passes of the first
    epoch complete, its learning rate is logged and the checkpoint test
    [epoch % 0] then raises [ZeroDivisionError]: one training pass, one
    evaluation pass, two learning-rate points, nothing saved and the
    scheduler not stepped. *)
Theorem zero_checkpoint_interval_raises (bk : backend)
    (epoch_start epoch_end log_interval : Z) :
  epoch_start < epoch_end →
  is_ok (train_step (train_dataloader bk epoch_start) log_interval
           epoch_start).2 = true →
  is_ok (test_step (val_dataloader bk epoch_start) (epoch_start + 1)).2
    = true →
  ∃ t, train bk epoch_start epoch_end 0 log_interval
         = (t, Raise ZeroDivisionError) ∧
       training_passes t = 1%nat ∧ evaluation_passes t = 1%nat ∧
       length (points "learning_rate" t) = 2%nat ∧
       checkpoints t = [] ∧ scheduler_steps t = 0%nat.
Proof.
  intros Hlt Htr Hte.
  destruct (train_step_trace (train_dataloader bk epoch_start) log_interval
              epoch_start) as (t1 & Ht1 & Hp1 & He1 & Hl1 & Hq1 & Hc1 & Hs1).
  destruct (test_step_trace (val_dataloader bk epoch_start) (epoch_start + 1))
    as (t2 & Ht2 & Hp2 & He2 & Hl2 & Hq2 & Hc2 & Hs2).
  apply ok_unit in Htr as [t1' H1]. apply ok_unit in Hte as [t2' H2].
  rewrite H1 in Ht1. rewrite H2 in Ht2. simpl in Ht1, Ht2. subst t1' t2'.
  unfold train.
  destruct (Z.to_nat (epoch_end - epoch_start)) as [|n] eqn:Hn; [lia|].
  cbn [epochs]. rewrite H1. cbn. rewrite H2. cbn.
  eexists. split; [reflexivity|]. observe.
  rewrite Hp1, Hp2, He1, He2, Hq1, Hq2, Hc1, Hc2, Hs1, Hs2. done.
Qed.

Lemma zero_checkpoint_interval_raises_witness :
  ∃ t, train Examples.steady 0 2 0 1 = (t, Raise ZeroDivisionError) ∧
       training_passes t = 1%nat ∧ evaluation_passes t = 1%nat ∧
       length (points "learning_rate" t) = 2%nat ∧
       checkpoints t = [] ∧ scheduler_steps t = 0%nat.
Proof.
  apply (zero_checkpoint_interval_raises Examples.steady 0 2 1).
  - lia.
  - by vm_compute.
  - by vm_compute.
Defined.

(** A validation loader without samples ends the run in the first
    epoch.  If the training pass of that epoch completes, the run
    consists of the initial learning-rate point, that whole training
    pass and the call of [model.eval()]; the evaluation pass then raises
    [ZeroDivisionError] when it reports, and nothing else happens: no
    learning-rate point for the epoch, no checkpoint, no scheduler
    step. *)
Theorem empty_validation_aborts_first_epoch (bk : backend)
    (epoch_start epoch_end checkpoint_interval log_interval : Z)
    (t1 : list event) :
  epoch_start < epoch_end →
  train_step (train_dataloader bk epoch_start) log_interval epoch_start
    = (t1, Ok tt) →
  sum_list (b_len <$> val_dataloader bk epoch_start) = 0%nat →
  test_step (val_dataloader bk epoch_start) (epoch_start + 1)
    = ([Model_eval], Raise ZeroDivisionError) ∧
  train bk epoch_start epoch_end checkpoint_interval log_interval =
    (Log_metrics [("learning_rate", lr bk 0%nat)] (inject_Z epoch_start)
       :: t1 ++ [Model_eval],
     Raise ZeroDivisionError) ∧
  checkpoints t1 = [] ∧ scheduler_steps t1 = 0%nat.
Proof.
  intros Hlt H1 Hsum.
  assert (test_step (val_dataloader bk epoch_start) (epoch_start + 1) =
          ([Model_eval], Raise ZeroDivisionError)) as H2.
  { unfold test_step. rewrite report_empty; [done|].
    right. rewrite foldl_accumulate_predictions, Hsum. done. }
  split; [done|]. split.
  - unfold train.
    destruct (Z.to_nat (epoch_end - epoch_start)) as [|n] eqn:Hn; [lia|].
    cbn [epochs]. rewrite H1. cbn. rewrite H2. reflexivity.
  - destruct (train_step_trace (train_dataloader bk epoch_start) log_interval
                epoch_start) as (t & Ht & _ & _ & _ & _ & Hc & Hs).
    rewrite H1 in Ht. simpl in Ht. subst t1. done.
Qed.

Lemma empty_validation_aborts_first_epoch_witness :
  test_step [] (0 + 1) = ([Model_eval], Raise ZeroDivisionError) ∧
  train Examples.no_validation 0 2 1 1 =
    (Log_metrics [("learning_rate", Trainer.lr Examples.no_validation 0%nat)]
       (inject_Z 0)
       :: (train_step Examples.two_batches 1 0).1 ++ [Model_eval],
     Raise ZeroDivisionError) ∧
  checkpoints (train_step Examples.two_batches 1 0).1 = [] ∧
  scheduler_steps (train_step Examples.two_batches 1 0).1 = 0%nat.
Proof.
  apply (empty_validation_aborts_first_epoch Examples.no_validation 0 2 1 1
           (train_step Examples.two_batches 1 0).1).
  - lia.
  - by vm_compute.
  - reflexivity.
Defined.

(** The checkpoint rule for any range and any non-zero interval, as it
    applies to a resumed run that completes: within
    [[epoch_start, epoch_end)] the saved epochs are those divisible by
    the interval, together with [epoch_end - 1]; the first epoch of the
    range is saved only if it is one of these. *)
Theorem checkpoint_cadence_any_range (bk : backend)
    (epoch_start epoch_end k log_interval : Z) :
  epoch_start ≤ epoch_end →
  k ≠ 0 →
  completes bk epoch_start epoch_end k log_interval →
  ∃ t, train bk epoch_start epoch_end k log_interval = (t, Ok tt) ∧
       ∀ e, e ∈ checkpoints t ↔
            epoch_start ≤ e < epoch_end ∧ ((k | e) ∨ e = epoch_end - 1).
Proof.
  intros Hle Hk [_ Hp].
  destruct (epochs_complete bk log_interval k epoch_end
              (Z.to_nat (epoch_end - epoch_start)) epoch_start 0)
    as (t & Ht & _ & _ & _ & Hck & _).
  { done. }
  { intros e He. apply Hp. lia. }
  unfold train. rewrite Ht. eexists. split; [reflexivity|].
  intros e. cbn. rewrite Hck, Z2Nat.id by lia.
  rewrite list_elem_of_filter, elem_of_seqZ, (Z.mod_divide e k Hk).
  split; intros [? ?]; (split; [done || lia | done || lia]).
Qed.

Lemma checkpoint_cadence_any_range_witness :
  ∃ t, train Examples.steady 6 12 5 1 = (t, Ok tt) ∧
       ∀ e, e ∈ checkpoints t ↔ 6 ≤ e < 12 ∧ ((5 | e) ∨ e = 12 - 1).
Proof.
  apply (checkpoint_cadence_any_range Examples.steady 6 12 5 1).
  - lia.
  - lia.
  - split; [done|]. intros e _. split; by vm_compute.
Defined.

End TrainerMore.

(** * Further properties of the entry point *)

Section EntryMore.
Import Entry.

(** ** Checks made before any work *)

(** The device is checked first: an unknown device fails the assertion,
    and a request for "cuda" on a machine without it raises, in both
    cases before a data loader, a model or a run has been created. *)
Theorem device_is_checked_before_any_work (e : env) (a : args) :
  (device a ∉ ["cpu"; "cuda"] →
   train e a = ([], Raise (AssertionError "Invalid device"))) ∧
  (device a = "cuda" → cuda_is_available e = false →
   train e a =
     ([], Raise (Exception "CUDA is not available on this device"))).
Proof.
  split.
  - intros Hd. unfold train.
    rewrite (bool_decide_eq_false_2 (device a ∈ ["cpu"; "cuda"])) by done.
    reflexivity.
  - intros Hd Hc. unfold train.
    rewrite (bool_decide_eq_true_2 (device a ∈ ["cpu"; "cuda"]))
      by (rewrite Hd; apply list_elem_of_further, list_elem_of_here).
    rewrite (bool_decide_eq_true_2 (device a = "cuda")) by done.
    rewrite Hc. reflexivity.
Qed.

Lemma device_is_checked_before_any_work_witness :
  train Examples.nothing_saved Examples.gpu_args =
    ([], Raise (Exception "CUDA is not available on this device")).
Proof.
  apply (device_is_checked_before_any_work Examples.nothing_saved
           Examples.gpu_args); reflexivity.
Defined.

(** ** The scheduler option *)

Ltac not_listed :=
  repeat (apply not_elem_of_cons; split; [done|]); apply not_elem_of_nil.

Lemma resolve_cases (e : env) (a : args) :
  resolve_epoch_start e a = ([], Ok 0) ∨
  ∃ rid, continue_from_checkpoint_run_id a = Some rid ∧
         continue_from_checkpoint_path a = None ∧
         resolve_epoch_start e a =
           ([Load_checkpoint rid None], load_checkpoint e rid None).
Proof.
  unfold resolve_epoch_start.
  destruct (continue_from_checkpoint_run_id a) as [rid|];
    destruct (continue_from_checkpoint_path a) as [p|]; auto.
  right. exists rid. cbn. by destruct (load_checkpoint e rid None).
Qed.

(** Every value of [--lr_scheduler] other than "custom" takes the branch
    that reads [args.lr], an option the parser does not define: the call
    can never reach [engine.train], and on the "cpu" device with the
    start epoch resolved it ends in [AttributeError] after the loaders,
    the model and the run have been created, with the run never ended. *)
Theorem fixed_scheduler_raises_attribute_error (e : env) (a : args) :
  lr_scheduler a ≠ "custom" →
  is_ok (train e a).2 = false ∧
  engine_calls (train e a).1 = [] ∧
  (device a = "cpu" → is_ok (resolve_epoch_start e a).2 = true →
   (train e a).2 = Raise (AttributeError "lr") ∧
   Run_manager (run_id a) ∈ (train e a).1 ∧
   End_run ∉ (train e a).1).
Proof.
  intros Hs. unfold train.
  rewrite (bool_decide_eq_false_2 (lr_scheduler a = "custom")) by done.
  destruct (bool_decide (device a ∈ ["cpu"; "cuda"])) eqn:Hdev; cbn.
  - destruct (bool_decide (device a = "cuda") && negb (cuda_is_available e))
      eqn:Hcuda; cbn.
    + split; [done|]. split; [done|]. intros Hd.
      rewrite Hd in Hcuda. done.
    + destruct (resolve_cases e a) as [Hr|(rid & _ & _ & Hr)]; rewrite Hr.
      * cbn. split; [done|]. split; [done|]. intros _ _.
        split; [done|]. split; [|not_listed].
        do 2 apply list_elem_of_further. apply list_elem_of_here.
      * destruct (load_checkpoint e rid None) as [n|x]; cbn.
        -- split; [done|]. split; [done|]. intros _ _.
           split; [done|]. split; [|not_listed].
           do 2 apply list_elem_of_further. apply list_elem_of_here.
        -- split; [done|]. split; [done|]. intros _ Hok. done.
  - split; [done|]. split; [done|]. intros Hd.
    apply bool_decide_eq_false_1 in Hdev. rewrite Hd in Hdev.
    destruct Hdev. apply list_elem_of_here.
Qed.

Lemma fixed_scheduler_raises_attribute_error_witness :
  is_ok (train Examples.saved_epoch_5 Examples.fixed_rate_args).2 = false ∧
  engine_calls (train Examples.saved_epoch_5 Examples.fixed_rate_args).1 = [] ∧
  (train Examples.saved_epoch_5 Examples.fixed_rate_args).2
    = Raise (AttributeError "lr") ∧
  Run_manager "r3" ∈ (train Examples.saved_epoch_5 Examples.fixed_rate_args).1 ∧
  End_run ∉ (train Examples.saved_epoch_5 Examples.fixed_rate_args).1.
Proof.
  destruct (fixed_scheduler_raises_attribute_error Examples.saved_epoch_5
              Examples.fixed_rate_args) as (H1 & H2 & H3); [done|].
  split; [exact H1|]. split; [exact H2|]. apply H3; reflexivity.
Defined.

(** ** Resuming *)

(** With a run id and no path the loader is asked once, for that run with
    no path, after loaders, model and run exist; training then covers
    [num_epochs] epochs starting at the epoch the loader returned, and
    the run is ended afterwards. *)
Theorem resume_by_run_id (e : env) (a : args) (rid : string) (n : Z) :
  continue_from_checkpoint_run_id a = Some rid →
  continue_from_checkpoint_path a = None →
  load_checkpoint e rid None = Ok n →
  device a = "cpu" →
  lr_scheduler a = "custom" →
  train e a =
    ([Create_dataloaders (batch_size a) 8; Build_model "cpu";
      Run_manager (run_id a); Load_checkpoint rid None;
      Get_custom_lr_scheduler; Log_data; Log_files;
      Engine_train n (n + num_epochs a) (checkpoint_interval a)
        (log_interval a);
      End_run], Ok tt).
Proof.
  intros Hr Hp Hl Hd Hs. unfold train.
  rewrite (resolve_latest e a rid Hr Hp), Hl, Hd.
  rewrite (bool_decide_eq_true_2 (lr_scheduler a = "custom")) by done.
  reflexivity.
Qed.

Lemma resume_by_run_id_witness :
  train Examples.saved_epoch_5 Examples.resume_by_id =
    ([Create_dataloaders 32 8; Build_model "cpu"; Run_manager "r2";
      Load_checkpoint "r1" None; Get_custom_lr_scheduler; Log_data;
      Log_files; Engine_train 6 (6 + 10) 1 10; End_run], Ok tt).
Proof.
  apply (resume_by_run_id Examples.saved_epoch_5 Examples.resume_by_id
           "r1" 6); reflexivity.
Defined.

(** If the loader raises, so does the call: training is never started
    and the run that was just opened is not ended. *)
Theorem loader_failure_aborts_before_training (e : env) (a : args)
    (rid : string) (x : exn) :
  continue_from_checkpoint_run_id a = Some rid →
  continue_from_checkpoint_path a = None →
  load_checkpoint e rid None = Raise x →
  device a = "cpu" →
  train e a =
    ([Create_dataloaders (batch_size a) 8; Build_model "cpu";
      Run_manager (run_id a); Load_checkpoint rid None], Raise x).
Proof.
  intros Hr Hp Hl Hd. unfold train.
  rewrite (resolve_latest e a rid Hr Hp), Hl, Hd. reflexivity.
Qed.

Lemma loader_failure_aborts_before_training_witness :
  train Examples.nothing_saved Examples.resume_by_id =
    ([Create_dataloaders 32 8; Build_model "cpu"; Run_manager "r2";
      Load_checkpoint "r1" None],
     Raise (Exception "checkpoint not found")).
Proof.
  apply (loader_failure_aborts_before_training Examples.nothing_saved
           Examples.resume_by_id "r1" (Exception "checkpoint not found"));
    reflexivity.
Defined.

(** ** The confirmation prompt *)

Lemma lower_ascii_y (c : ascii) :
  lower_ascii c = "y"%char → c = "y"%char ∨ c = "Y"%char.
Proof.
  destruct c as [[] [] [] [] [] [] [] []]; vm_compute; intros H;
    first [by left | by right | discriminate H].
Qed.

Lemma lower_ascii_e (c : ascii) :
  lower_ascii c = "e"%char → c = "e"%char ∨ c = "E"%char.
Proof.
  destruct c as [[] [] [] [] [] [] [] []]; vm_compute; intros H;
    first [by left | by right | discriminate H].
Qed.

Lemma lower_ascii_s (c : ascii) :
  lower_ascii c = "s"%char → c = "s"%char ∨ c = "S"%char.
Proof.
  destruct c as [[] [] [] [] [] [] [] []]; vm_compute; intros H;
    first [by left | by right | discriminate H].
Qed.

Lemma lower_yes (inp : string) : lower inp = "yes" ↔ inp ∈ yes_spellings.
Proof.
  split.
  - destruct inp as [|c1 [|c2 [|c3 [|c4 rest]]]]; try discriminate.
    simpl. intros [= H1 H2 H3].
    apply lower_ascii_y in H1 as [-> | ->];
      apply lower_ascii_e in H2 as [-> | ->];
      apply lower_ascii_s in H3 as [-> | ->];
      unfold yes_spellings; rewrite !elem_of_cons; tauto.
  - unfold yes_spellings. rewrite !elem_of_cons, elem_of_nil.
    intros [->|[->|[->|[->|[->|[->|[->|[->|[]]]]]]]]]; reflexivity.
Qed.

(** The answer is compared after lower-casing: the eight capitalisations
    of "yes" start the training, every other answer ("y", "yes " with a
    blank, the empty line, ...) is refused. *)
Theorem confirmation_accepts_any_capitalisation (e : env) (a : args)
    (inp : string) :
  (inp ∈ yes_spellings →
   main e a inp =
     (Input_prompt (run_id a) :: Print_starting (run_id a) :: (train e a).1,
      (train e a).2)) ∧
  (inp ∉ yes_spellings →
   main e a inp =
     ([Input_prompt (run_id a)], Raise (Exception "Type yes on input..."))).
Proof.
  split; intros Hin.
  - apply confirmed_runs_train. by apply lower_yes.
  - unfold main. rewrite bool_decide_eq_true_2; [reflexivity|].
    by rewrite lower_yes.
Qed.

Lemma confirmation_accepts_any_capitalisation_witness :
  main Examples.saved_epoch_5 Examples.resume_by_id "YeS" =
    (Input_prompt "r2" :: Print_starting "r2" ::
       (train Examples.saved_epoch_5 Examples.resume_by_id).1,
     (train Examples.saved_epoch_5 Examples.resume_by_id).2) ∧
  main Examples.saved_epoch_5 Examples.resume_by_id "y" =
    ([Input_prompt "r2"], Raise (Exception "Type yes on input...")).
Proof.
  split.
  - apply (confirmation_accepts_any_capitalisation Examples.saved_epoch_5
             Examples.resume_by_id "YeS").
    unfold yes_spellings. do 5 apply list_elem_of_further.
    apply list_elem_of_here.
  - apply (confirmation_accepts_any_capitalisation Examples.saved_epoch_5
             Examples.resume_by_id "y").
    unfold yes_spellings. rewrite !not_elem_of_cons.
    repeat split; try done. apply not_elem_of_nil.
Defined.

End EntryMore.
